(** * The NVIDIA GPU collector of node_exporter (collector/gpu_nvida.go)

    A shallow embedding of [NewGPUCollector] and [gpuCollector.Update] and
    the properties of the collector's contract.

    The collector talks to three collaborators: the NVML device-management
    library, the Prometheus client library and a structured logger.  NVML is
    a stateful foreign library: it is modelled as a record of transition
    functions over an abstract library state.  Every interaction of the
    collector with the outside (a library call with its answer, a sample
    sent on the channel, a log record) is recorded, in program order, in one
    trace of events.  A Go panic is an explicit outcome, with the state
    and the events at the time of the panic. *)

From Stdlib Require Import ZArith List Sorted String Ascii Bool Lia.
From Stdlib Require Import DecimalString DecimalPos DecimalZ.
From Stdlib Require Import Floats.SpecFloat.
Import ListNotations.

Local Open Scope string_scope.
Local Open Scope Z_scope.
Local Open Scope list_scope.

(** ** Go basics *)

(** [float64]: IEEE 754 binary64, as the specification floats of the
    Standard Library (53 bits of precision, maximal exponent 1024). *)
Definition float64 : Type := spec_float.

(** The conversion [float64(n)] of an integer [n]: round to nearest, ties to
    even. *)
Definition float64_of_int (n : Z) : float64 := binary_normalize 53 1024 n 0 false.

(** The constant [1] at type [float64]. *)
Definition float64_one : float64 := SFone 53 1024.

Module strconv.
(** [strconv.Itoa]: the decimal representation of an [int]. *)
Definition Itoa (i : Z) : string := NilZero.string_of_int (Z.to_int i).
End strconv.

Module utf8.

(** Is [lo <= a <= hi]? *)
Definition within (lo hi : N) (a : ascii) : bool :=
  (lo <=? N_of_ascii a)%N && (N_of_ascii a <=? hi)%N.

(** [utf8.ValidString]: is the string, a sequence of bytes, made of valid
    UTF-8 encodings only?  One byte below 0x80; or a lead byte C2..DF,
    E0..EF or F0..F4 followed by one, two or three continuation bytes
    80..BF, the first of them restricted to A0..BF after E0, 80..9F after
    ED, 90..BF after F0 and 80..8F after F4. *)
Fixpoint ValidString (s : string) : bool :=
  match s with
  | EmptyString => true
  | String a s1 =>
      if within 0 127 a then ValidString s1 else
      match s1 with
      | EmptyString => false
      | String b s2 =>
          if within 194 223 a then within 128 191 b && ValidString s2 else
          match s2 with
          | EmptyString => false
          | String c s3 =>
              if within 224 239 a then
                (if within 224 224 a then within 160 191 b
                 else if within 237 237 a then within 128 159 b
                 else within 128 191 b)
                && within 128 191 c && ValidString s3
              else
              match s3 with
              | EmptyString => false
              | String d s4 =>
                  if within 240 244 a then
                    (if within 240 240 a then within 144 191 b
                     else if within 244 244 a then within 128 143 b
                     else within 128 191 b)
                    && within 128 191 c && within 128 191 d
                    && ValidString s4
                  else false
              end
          end
      end
  end.

End utf8.

(** ** The Prometheus client library *)

Module prometheus.

(** [prometheus.Desc]: the descriptor of a metric. *)
Record Desc : Type := mkDesc {
  fqName : string;
  help : string;
  variableLabels : list string;
  constLabels : list (string * string)
}.

(** [prometheus.BuildFQName]: the parts that are not empty, joined by
    underscores; empty when [name] is. *)
Definition BuildFQName (namespace subsystem name : string) : string :=
  if String.eqb name "" then ""
  else if negb (String.eqb namespace "") && negb (String.eqb subsystem "")
  then (namespace ++ "_" ++ subsystem ++ "_" ++ name)%string
  else if negb (String.eqb namespace "") then (namespace ++ "_" ++ name)%string
  else if negb (String.eqb subsystem "") then (subsystem ++ "_" ++ name)%string
  else name.

Definition NewDesc (fqName help : string) (variableLabels : list string)
           (constLabels : list (string * string)) : Desc :=
  mkDesc fqName help variableLabels constLabels.

Inductive ValueType : Type := CounterValue | GaugeValue | UntypedValue.

(** A constant metric: one sample. *)
Record Metric : Type := mkMetric {
  desc : Desc;
  valType : ValueType;
  value : float64;
  labelValues : list string
}.

(** The labels a sample carries: the descriptor's variable labels paired
    with the sample's label values. *)
Definition labelPairs (m : Metric) : list (string * string) :=
  combine (variableLabels (desc m)) (labelValues m).

(** [prometheus.MustNewConstMetric] panics ([None]) when the number of
    label values is not the number of variable labels of the descriptor,
    and when a label value is not valid UTF-8.  The descriptor itself is
    taken to be valid: [NewDesc] records an error in a descriptor whose
    name or label names are ill-formed, which is not the case of the
    descriptors of this collector for the namespace of the package. *)
Definition MustNewConstMetric (d : Desc) (vt : ValueType) (v : float64)
           (lvs : list string) : option Metric :=
  if Nat.eqb (List.length lvs) (List.length (variableLabels d))
     && forallb utf8.ValidString lvs
  then Some (mkMetric d vt v lvs)
  else None.

End prometheus.

(** ** The NVML library *)

Module nvml.

(** [nvml.Return]: the return code of every call. *)
Definition Return : Type := Z.
Definition SUCCESS : Return := 0.

(** [ret != nvml.SUCCESS] *)
Definition failed (ret : Return) : bool := negb (ret =? SUCCESS).

(** [nvml.Utilization]; both fields are [uint32]. *)
Record Utilization : Type := mkUtilization {
  Gpu : Z;
  Memory_ : Z
}.

(** [nvml.Memory]; the fields are [uint64]. *)
Record Memory : Type := mkMemory {
  Total : Z;
  Free : Z;
  Used : Z
}.

Inductive TemperatureSensors : Type := TEMPERATURE_GPU.

(** The library: each entry point takes the library's state to its answer
    and next state.  [St] is the state of the library and of the hardware
    behind it, [Device] the type of device handles. *)
Record Library {St Device : Type} : Type := mkLibrary {
  Init : St -> Return * St;
  DeviceGetCount : St -> (Z * Return) * St;
  DeviceGetHandleByIndex : Z -> St -> (Device * Return) * St;
  GetName : Device -> St -> (string * Return) * St;
  GetUtilizationRates : Device -> St -> (Utilization * Return) * St;
  GetTemperature : Device -> TemperatureSensors -> St -> (Z * Return) * St;
  GetMemoryInfo : Device -> St -> (Memory * Return) * St
}.
Arguments Library : clear implicits.

(** A call of the library, with what it answered. *)
Inductive Call {Device : Type} : Type :=
| CallInit (ret : Return)
| CallDeviceGetCount (count : Z) (ret : Return)
| CallDeviceGetHandleByIndex (i : Z) (device : Device) (ret : Return)
| CallGetName (device : Device) (name : string) (ret : Return)
| CallGetUtilizationRates (device : Device) (util : Utilization) (ret : Return)
| CallGetTemperature (device : Device) (sensor : TemperatureSensors)
                     (temp : Z) (ret : Return)
| CallGetMemoryInfo (device : Device) (mem : Memory) (ret : Return).
Arguments Call : clear implicits.

End nvml.

(** ** Errors and the structured logger *)

(** Go's [error] values built by this file. *)
Inductive error : Type :=
| fmt_Errorf (format : string) (arg : nvml.Return)  (* fmt.Errorf(format, arg) *)
| errors_New (text : string).                       (* errors.New(text) *)

Module slog.
Inductive Level : Type := LevelWarn | LevelError.

(** The values this file logs: a loop index or an NVML return code. *)
Inductive Value : Type :=
| IntValue (i : Z)
| AnyValue (ret : nvml.Return).

(** One log record: level, message and key-value pairs. *)
Record Record_ : Type := mkRecord {
  level : Level;
  message : string;
  attrs : list (string * Value)
}.
End slog.

(** ** Effects *)

Declare Scope go_scope.
Delimit Scope go_scope with go.

Section Effects.

Context {St Device Logger Obj : Type}.

(** What the program does to the outside, in program order. *)
Inductive Event : Type :=
| ECall (c : nvml.Call Device)                  (* a library call, answered *)
| ESend (m : prometheus.Metric)                 (* ch <- m *)
| ELog (l : Logger) (r : slog.Record_).         (* l.Warn(...), l.Error(...) *)

(** The state a computation runs in: the state of the NVML library and the
    heap of allocated objects; a pointer is an index into the heap. *)
Record State : Type := mkState {
  nvmlState : St;
  heap : list Obj
}.

Definition ptr : Type := nat.

(** The outcome of a computation: it returns a value, in a new state, or
    it panics, in the state reached; in both cases after a trace of
    events. *)
Inductive Res (A : Type) : Type :=
| Returns (a : A) (s : State) (t : list Event)
| Panics (s : State) (t : list Event).
Arguments Returns {A}.
Arguments Panics {A}.

Definition M (A : Type) : Type := State -> Res A.

Definition ret {A} (a : A) : M A := fun s => Returns a s [].

Definition bind {A B} (m : M A) (f : A -> M B) : M B :=
  fun s =>
    match m s with
    | Returns a s1 t1 =>
        match f a s1 with
        | Returns b s2 t2 => Returns b s2 (t1 ++ t2)
        | Panics s2 t2 => Panics s2 (t1 ++ t2)
        end
    | Panics s1 t1 => Panics s1 t1
    end.

(** The value a computation returned, if it did. *)
Definition result {A} (r : Res A) : option A :=
  match r with Returns a _ _ => Some a | Panics _ _ => None end.

(** The state a computation ended in, if it returned. *)
Definition final {A} (r : Res A) : option State :=
  match r with Returns _ s _ => Some s | Panics _ _ => None end.

(** The state a computation ended in, by a return or by a panic. *)
Definition last_state {A} (r : Res A) : State :=
  match r with Returns _ s _ => s | Panics s _ => s end.

(** The events of a computation. *)
Definition events {A} (r : Res A) : list Event :=
  match r with Returns _ _ t => t | Panics _ t => t end.

(** The outcome that is a panic when [p] holds, a return otherwise. *)
Definition ends {A} (p : bool) (a : A) (s : State) (t : list Event) : Res A :=
  if p then Panics s t else Returns a s t.

(** The samples sent, the library calls made and the records logged, each
    in program order. *)
Definition samples (t : list Event) : list prometheus.Metric :=
  flat_map (fun e => match e with ESend m => [m] | _ => [] end) t.

Definition calls (t : list Event) : list (nvml.Call Device) :=
  flat_map (fun e => match e with ECall c => [c] | _ => [] end) t.

Definition logs (t : list Event) : list (Logger * slog.Record_) :=
  flat_map (fun e => match e with ELog l r => [(l, r)] | _ => [] end) t.

(** A call of an entry point of the library. *)
Definition call {A} (f : St -> A * St) (c : A -> nvml.Call Device) : M A :=
  fun s =>
    let (a, n) := f (nvmlState s) in
    Returns a (mkState n (heap s)) [ECall (c a)].

(** [ch <- m]: the channel is the one [Update] is given; the framework
    keeps it open and reads it until [Update] returns. *)
Definition send (m : prometheus.Metric) : M unit :=
  fun s => Returns tt s [ESend m].

(** A function of the [Must] kind: its failure is a panic. *)
Definition must {A} (o : option A) : M A :=
  fun s => match o with Some a => Returns a s [] | None => Panics s [] end.

(** [&T{...}]: allocation of a new object. *)
Definition new (o : Obj) : M ptr :=
  fun s => Returns (List.length (heap s)) (mkState (nvmlState s) (heap s ++ [o])) [].

(** [g.f]: a field read through a pointer; a nil or dangling pointer
    panics. *)
Definition load {A} (g : ptr) (f : Obj -> A) : M A :=
  fun s => match nth_error (heap s) g with
           | Some o => Returns (f o) s []
           | None => Panics s []
           end.

Definition log (l : Logger) (lv : slog.Level) (msg : string)
           (kv : list (string * slog.Value)) : M unit :=
  fun s => Returns tt s [ELog l (slog.mkRecord lv msg kv)].

(** [for i := lo; i < hi; i++ { body }], the body never assigning [i]. *)
Fixpoint for_steps (n : nat) (i : Z) (body : Z -> M unit) : M unit :=
  match n with
  | O => ret tt
  | S n' => bind (body i) (fun _ => for_steps n' (i + 1) body)
  end.

Definition for_range (lo hi : Z) (body : Z -> M unit) : M unit :=
  for_steps (Z.to_nat (hi - lo)) lo body.

End Effects.

Arguments Event : clear implicits.
Arguments State : clear implicits.
Arguments Res : clear implicits.
Arguments M : clear implicits.
Arguments Returns {St Device Logger Obj A} a s t.
Arguments Panics {St Device Logger Obj A} s t.
Arguments ends {St Device Logger Obj A} p a s t.

Notation "x <- c1 ;; c2" := (bind c1 (fun x => c2))
  (at level 61, c1 at next level, right associativity) : go_scope.
Notation "' p <- c1 ;; c2" := (bind c1 (fun p => c2))
  (at level 61, p pattern, c1 at next level, right associativity) : go_scope.
Notation "c1 ;; c2" := (bind c1 (fun _ => c2))
  (at level 61, right associativity) : go_scope.

(** ** The collector *)

(** [gpuCollector]: the logger and the six metric descriptors. *)
Record gpuCollector {Logger : Type} : Type := mkGpuCollector {
  logger : Logger;
  gpuUtilizationDesc : prometheus.Desc;
  gpuTemperatureDesc : prometheus.Desc;
  gpuMemoryTotalDesc : prometheus.Desc;
  gpuMemoryUsedDesc : prometheus.Desc;
  gpuMemoryFreeDesc : prometheus.Desc;
  gpuInfoDesc : prometheus.Desc
}.
Arguments gpuCollector : clear implicits.

Definition gpuCollectorSubsystem : string := "gpu".

(** The six descriptors of a collector, in the order of the struct. *)
Definition descriptors {Logger : Type} (c : gpuCollector Logger)
  : list prometheus.Desc :=
  [ gpuUtilizationDesc c; gpuTemperatureDesc c; gpuMemoryTotalDesc c;
    gpuMemoryUsedDesc c; gpuMemoryFreeDesc c; gpuInfoDesc c ].

Section Collector.

Context {St Device Logger : Type}.

(** The NVML library the process is linked with. *)
Variable lib : nvml.Library St Device.

(** The package constant [namespace]; it is declared in another file of
    the package. *)
Variable namespace : string.

Abbreviation Go := (M St Device Logger (gpuCollector Logger)).

Local Open Scope go_scope.

(** The entry points of the library, as computations. *)
Definition nvml_Init : Go nvml.Return :=
  call (nvml.Init lib) nvml.CallInit.

Definition nvml_DeviceGetCount : Go (Z * nvml.Return) :=
  call (nvml.DeviceGetCount lib)
       (fun a => nvml.CallDeviceGetCount (fst a) (snd a)).

Definition nvml_DeviceGetHandleByIndex (i : Z) : Go (Device * nvml.Return) :=
  call (nvml.DeviceGetHandleByIndex lib i)
       (fun a => nvml.CallDeviceGetHandleByIndex i (fst a) (snd a)).

Definition device_GetName (device : Device) : Go (string * nvml.Return) :=
  call (nvml.GetName lib device)
       (fun a => nvml.CallGetName device (fst a) (snd a)).

Definition device_GetUtilizationRates (device : Device)
  : Go (nvml.Utilization * nvml.Return) :=
  call (nvml.GetUtilizationRates lib device)
       (fun a => nvml.CallGetUtilizationRates device (fst a) (snd a)).

Definition device_GetTemperature (device : Device)
           (sensor : nvml.TemperatureSensors) : Go (Z * nvml.Return) :=
  call (nvml.GetTemperature lib device sensor)
       (fun a => nvml.CallGetTemperature device sensor (fst a) (snd a)).

Definition device_GetMemoryInfo (device : Device)
  : Go (nvml.Memory * nvml.Return) :=
  call (nvml.GetMemoryInfo lib device)
       (fun a => nvml.CallGetMemoryInfo device (fst a) (snd a)).

Definition logger_Warn (l : Logger) (msg : string)
           (kv : list (string * slog.Value)) : Go unit :=
  log l slog.LevelWarn msg kv.

Definition logger_Error (l : Logger) (msg : string)
           (kv : list (string * slog.Value)) : Go unit :=
  log l slog.LevelError msg kv.

(** The struct literal of [NewGPUCollector]. *)
Definition newCollector (l : Logger) : gpuCollector Logger :=
  {| logger := l;
     gpuUtilizationDesc :=
       prometheus.NewDesc
         (prometheus.BuildFQName namespace gpuCollectorSubsystem "utilisation_percentage")
         "GPU utilisation in percent."
         ["gpu_index"; "gpu_name"] [];
     gpuTemperatureDesc :=
       prometheus.NewDesc
         (prometheus.BuildFQName namespace gpuCollectorSubsystem "temperature_celsius")
         "GPU temperature in Celsius."
         ["gpu_index"; "gpu_name"] [];
     gpuMemoryTotalDesc :=
       prometheus.NewDesc
         (prometheus.BuildFQName namespace gpuCollectorSubsystem "memory_total_bytes")
         "Total GPU memory in bytes."
         ["gpu_index"; "gpu_name"] [];
     gpuMemoryUsedDesc :=
       prometheus.NewDesc
         (prometheus.BuildFQName namespace gpuCollectorSubsystem "memory_used_bytes")
         "Used GPU memory in bytes."
         ["gpu_index"; "gpu_name"] [];
     gpuMemoryFreeDesc :=
       prometheus.NewDesc
         (prometheus.BuildFQName namespace gpuCollectorSubsystem "memory_free_bytes")
         "Free GPU memory in bytes."
         ["gpu_index"; "gpu_name"] [];
     gpuInfoDesc :=
       prometheus.NewDesc
         (prometheus.BuildFQName namespace gpuCollectorSubsystem "info")
         "Static GPU information (e.g. index and name)."
         ["gpu_index"; "gpu_name"] [] |}.

(** [NewGPUCollector]: initialise NVML, then allocate the collector.  The
    result is the pair of the collector (a pointer, or nil) and the error
    (or nil). *)
Definition NewGPUCollector (l : Logger) : Go (option ptr * option error) :=
  r <- nvml_Init ;;
  if nvml.failed r then
    ret (None, Some (fmt_Errorf "could not initialise NVML: %v" r))
  else
    g <- new (newCollector l) ;;
    ret (Some g, None).

(** One round of the loop of [Update], for the index [i]; a [continue] is
    the end of the round. *)
Definition Update_device (g : ptr) (i : Z) : Go unit :=
  '(device, r) <- nvml_DeviceGetHandleByIndex i ;;
  if nvml.failed r then
    l <- load g logger ;;
    logger_Warn l "failed to get handle for GPU device"
                [("gpu_index", slog.IntValue i); ("return", slog.AnyValue r)]
  else
  (* retrieve the GPU name *)
  '(name, r) <- device_GetName device ;;
  name <- (if nvml.failed r then
             l <- load g logger ;;
             logger_Warn l "failed to get GPU name"
               [("gpu_index", slog.IntValue i); ("return", slog.AnyValue r)] ;;
             ret "unknown"
           else ret name) ;;
  (* retrieve GPU utilization rates *)
  '(util, r) <- device_GetUtilizationRates device ;;
  if nvml.failed r then
    l <- load g logger ;;
    logger_Warn l "failed to get GPU utilization"
                [("gpu_index", slog.IntValue i); ("return", slog.AnyValue r)]
  else
  (* retrieve GPU temperature *)
  '(temp, r) <- device_GetTemperature device nvml.TEMPERATURE_GPU ;;
  if nvml.failed r then
    l <- load g logger ;;
    logger_Warn l "failed to get GPU temperature"
                [("gpu_index", slog.IntValue i); ("return", slog.AnyValue r)]
  else
  (* retrieve GPU memory info *)
  '(mem, r) <- device_GetMemoryInfo device ;;
  if nvml.failed r then
    l <- load g logger ;;
    logger_Warn l "failed to get GPU memory info"
                [("gpu_index", slog.IntValue i); ("return", slog.AnyValue r)]
  else
  let gpuIndex := strconv.Itoa i in
  let gpuUtilization := float64_of_int (nvml.Gpu util) in
  (* export metrics *)
  d <- load g gpuUtilizationDesc ;;
  m <- must (prometheus.MustNewConstMetric d prometheus.GaugeValue
               gpuUtilization [gpuIndex; name]) ;;
  send m ;;
  d <- load g gpuTemperatureDesc ;;
  m <- must (prometheus.MustNewConstMetric d prometheus.GaugeValue
               (float64_of_int temp) [gpuIndex; name]) ;;
  send m ;;
  d <- load g gpuMemoryTotalDesc ;;
  m <- must (prometheus.MustNewConstMetric d prometheus.GaugeValue
               (float64_of_int (nvml.Total mem)) [gpuIndex; name]) ;;
  send m ;;
  d <- load g gpuMemoryUsedDesc ;;
  m <- must (prometheus.MustNewConstMetric d prometheus.GaugeValue
               (float64_of_int (nvml.Used mem)) [gpuIndex; name]) ;;
  send m ;;
  d <- load g gpuMemoryFreeDesc ;;
  m <- must (prometheus.MustNewConstMetric d prometheus.GaugeValue
               (float64_of_int (nvml.Free mem)) [gpuIndex; name]) ;;
  send m ;;
  (* export a static metric with GPU information *)
  d <- load g gpuInfoDesc ;;
  m <- must (prometheus.MustNewConstMetric d prometheus.GaugeValue
               float64_one [gpuIndex; name]) ;;
  send m.

(** [gpuCollector.Update]: the result is the error, or nil. *)
Definition Update (g : ptr) : Go (option error) :=
  (* retrieve the number of NVIDIA GPUs *)
  '(count, r) <- nvml_DeviceGetCount ;;
  if nvml.failed r then
    l <- load g logger ;;
    logger_Error l "failed to get GPU count" [("return", slog.AnyValue r)] ;;
    ret (Some (fmt_Errorf "could not retrieve GPU count: %v" r))
  else if count =? 0 then
    ret (Some (errors_New "no NVIDIA GPUs found"))
  else
    for_range 0 count (Update_device g) ;;
    ret None.

End Collector.

(** ** What one call of [Update] looks like from outside

    The definitions of this part are not code of the collector: they name
    what its contract speaks about (the samples of one device, the answers of
    the library in one round of the loop). *)

(** The indices [0 .. count-1], ascending; empty when [count <= 0]. *)
Definition indices (count : Z) : list Z :=
  map Z.of_nat (seq 0 (Z.to_nat count)).

(** The value of the label [key] of a sample. *)
Fixpoint assoc (key : string) (kvs : list (string * string)) : option string :=
  match kvs with
  | [] => None
  | (k, v) :: kvs' => if String.eqb k key then Some v else assoc key kvs'
  end.

Definition label (key : string) (m : prometheus.Metric) : option string :=
  assoc key (prometheus.labelPairs m).

(** Is [m] labelled with the device index [i]? *)
Definition has_index (i : Z) (m : prometheus.Metric) : bool :=
  match label "gpu_index" m with
  | Some v => String.eqb v (strconv.Itoa i)
  | None => false
  end.

(** The label the collector gives a device whose name read answered
    [(name, ret)]. *)
Definition nameLabel (name : string) (ret : nvml.Return) : string :=
  if nvml.failed ret then "unknown" else name.

Section Rounds.

Context {Device Logger : Type}.

Abbreviation Call := (nvml.Call Device).

(** The samples of the trace [t] that are labelled with the index [i]. *)
Definition samplesFor (i : Z) (t : list (Event Device Logger))
  : list prometheus.Metric :=
  filter (has_index i) (samples t).

(** The indices of the handles asked for, in order. *)
Definition handleIndices (cs : list Call) : list Z :=
  flat_map (fun c => match c with
                     | nvml.CallDeviceGetHandleByIndex i _ _ => [i]
                     | _ => []
                     end) cs.

(** The five answers of the library for a device all of whose reads,
    but perhaps that of the name, succeed. *)
Definition allReads (i : Z) (device : Device) (name : string)
           (nameRet : nvml.Return) (util : nvml.Utilization) (temp : Z)
           (mem : nvml.Memory) : list Call :=
  [ nvml.CallDeviceGetHandleByIndex i device nvml.SUCCESS;
    nvml.CallGetName device name nameRet;
    nvml.CallGetUtilizationRates device util nvml.SUCCESS;
    nvml.CallGetTemperature device nvml.TEMPERATURE_GPU temp nvml.SUCCESS;
    nvml.CallGetMemoryInfo device mem nvml.SUCCESS ].

(** The six samples of one device, for the collector [c]. *)
Definition deviceSamples (c : gpuCollector Logger) (gpuIndex name : string)
           (util : nvml.Utilization) (temp : Z) (mem : nvml.Memory)
  : list prometheus.Metric :=
  [ prometheus.mkMetric (gpuUtilizationDesc c) prometheus.GaugeValue
      (float64_of_int (nvml.Gpu util)) [gpuIndex; name];
    prometheus.mkMetric (gpuTemperatureDesc c) prometheus.GaugeValue
      (float64_of_int temp) [gpuIndex; name];
    prometheus.mkMetric (gpuMemoryTotalDesc c) prometheus.GaugeValue
      (float64_of_int (nvml.Total mem)) [gpuIndex; name];
    prometheus.mkMetric (gpuMemoryUsedDesc c) prometheus.GaugeValue
      (float64_of_int (nvml.Used mem)) [gpuIndex; name];
    prometheus.mkMetric (gpuMemoryFreeDesc c) prometheus.GaugeValue
      (float64_of_int (nvml.Free mem)) [gpuIndex; name];
    prometheus.mkMetric (gpuInfoDesc c) prometheus.GaugeValue
      float64_one [gpuIndex; name] ].

(** What was read of one device: its index, the name it is labelled with
    and the three readings. *)
Record Reading : Type := mkReading {
  r_index : Z;
  r_name : string;
  r_util : nvml.Utilization;
  r_temp : Z;
  r_mem : nvml.Memory
}.

Definition readingSamples (c : gpuCollector Logger) (rd : Reading)
  : list prometheus.Metric :=
  deviceSamples c (strconv.Itoa (r_index rd)) (r_name rd)
                (r_util rd) (r_temp rd) (r_mem rd).

(** The calls by which [Update] reads the library; [nvml.Init] is not one
    of them. *)
Definition is_query (c : Call) : bool :=
  match c with
  | nvml.CallInit _ => false
  | _ => true
  end.

(** How one round of the loop went, with the answers of the library: the
    handle was refused, or a read of utilization, temperature or memory
    failed, or the device was read. *)
Inductive Round : Type :=
| NoHandle (device : Device) (ret : nvml.Return)
| NoUtilization (device : Device) (name : string) (nameRet : nvml.Return)
                (util : nvml.Utilization) (ret : nvml.Return)
| NoTemperature (device : Device) (name : string) (nameRet : nvml.Return)
                (util : nvml.Utilization) (temp : Z) (ret : nvml.Return)
| NoMemory (device : Device) (name : string) (nameRet : nvml.Return)
           (util : nvml.Utilization) (temp : Z) (mem : nvml.Memory)
           (ret : nvml.Return)
| Collected (device : Device) (name : string) (nameRet : nvml.Return)
            (util : nvml.Utilization) (temp : Z) (mem : nvml.Memory).

(** The return code a round stopped at is a failure. *)
Definition round_wf (o : Round) : bool :=
  match o with
  | NoHandle _ r | NoUtilization _ _ _ _ r | NoTemperature _ _ _ _ _ r
  | NoMemory _ _ _ _ _ _ r => nvml.failed r
  | Collected _ _ _ _ _ _ => true
  end.

(** A round that read the device and then panics: the name the device
    would be labelled with is not valid UTF-8, and
    [prometheus.MustNewConstMetric] refuses it for the first sample. *)
Definition round_panics (o : Round) : bool :=
  match o with
  | Collected _ n rn _ _ _ => negb (utf8.ValidString (nameLabel n rn))
  | _ => false
  end.

(** A round that got a handle and then failed to read utilization,
    temperature or memory. *)
Definition read_failed (o : Round) : bool :=
  match o with
  | NoUtilization _ _ _ _ _ | NoTemperature _ _ _ _ _ _
  | NoMemory _ _ _ _ _ _ _ => true
  | _ => false
  end.

(** The calls of a round for the index [i]. *)
Definition round_calls (i : Z) (o : Round) : list Call :=
  match o with
  | NoHandle d r => [nvml.CallDeviceGetHandleByIndex i d r]
  | NoUtilization d n rn u r =>
      [nvml.CallDeviceGetHandleByIndex i d nvml.SUCCESS;
       nvml.CallGetName d n rn;
       nvml.CallGetUtilizationRates d u r]
  | NoTemperature d n rn u t r =>
      [nvml.CallDeviceGetHandleByIndex i d nvml.SUCCESS;
       nvml.CallGetName d n rn;
       nvml.CallGetUtilizationRates d u nvml.SUCCESS;
       nvml.CallGetTemperature d nvml.TEMPERATURE_GPU t r]
  | NoMemory d n rn u t m r =>
      [nvml.CallDeviceGetHandleByIndex i d nvml.SUCCESS;
       nvml.CallGetName d n rn;
       nvml.CallGetUtilizationRates d u nvml.SUCCESS;
       nvml.CallGetTemperature d nvml.TEMPERATURE_GPU t nvml.SUCCESS;
       nvml.CallGetMemoryInfo d m r]
  | Collected d n rn u t m => allReads i d n rn u t m
  end.

Variable c : gpuCollector Logger.

(** The samples of a round: the six of the device, when it was read and
    the round does not panic. *)
Definition round_samples (i : Z) (o : Round) : list prometheus.Metric :=
  match o with
  | Collected _ n rn u t m =>
      if round_panics o then []
      else deviceSamples c (strconv.Itoa i) (nameLabel n rn) u t m
  | _ => []
  end.

Definition warn (msg : string) (i : Z) (r : nvml.Return)
  : Event Device Logger :=
  ELog (logger c)
       (slog.mkRecord slog.LevelWarn msg
          [("gpu_index", slog.IntValue i); ("return", slog.AnyValue r)]).

(** The warning about the name, when its read failed. *)
Definition nameWarn (i : Z) (rn : nvml.Return) : list (Event Device Logger) :=
  if nvml.failed rn then [warn "failed to get GPU name" i rn] else [].

(** All the events of a round, in order. *)
Definition round_events (i : Z) (o : Round) : list (Event Device Logger) :=
  match o with
  | NoHandle d r =>
      [ECall (nvml.CallDeviceGetHandleByIndex i d r);
       warn "failed to get handle for GPU device" i r]
  | NoUtilization d n rn u r =>
      [ECall (nvml.CallDeviceGetHandleByIndex i d nvml.SUCCESS);
       ECall (nvml.CallGetName d n rn)]
      ++ nameWarn i rn
      ++ [ECall (nvml.CallGetUtilizationRates d u r);
          warn "failed to get GPU utilization" i r]
  | NoTemperature d n rn u t r =>
      [ECall (nvml.CallDeviceGetHandleByIndex i d nvml.SUCCESS);
       ECall (nvml.CallGetName d n rn)]
      ++ nameWarn i rn
      ++ [ECall (nvml.CallGetUtilizationRates d u nvml.SUCCESS);
          ECall (nvml.CallGetTemperature d nvml.TEMPERATURE_GPU t r);
          warn "failed to get GPU temperature" i r]
  | NoMemory d n rn u t m r =>
      [ECall (nvml.CallDeviceGetHandleByIndex i d nvml.SUCCESS);
       ECall (nvml.CallGetName d n rn)]
      ++ nameWarn i rn
      ++ [ECall (nvml.CallGetUtilizationRates d u nvml.SUCCESS);
          ECall (nvml.CallGetTemperature d nvml.TEMPERATURE_GPU t nvml.SUCCESS);
          ECall (nvml.CallGetMemoryInfo d m r);
          warn "failed to get GPU memory info" i r]
  | Collected d n rn u t m =>
      [ECall (nvml.CallDeviceGetHandleByIndex i d nvml.SUCCESS);
       ECall (nvml.CallGetName d n rn)]
      ++ nameWarn i rn
      ++ [ECall (nvml.CallGetUtilizationRates d u nvml.SUCCESS);
          ECall (nvml.CallGetTemperature d nvml.TEMPERATURE_GPU t nvml.SUCCESS);
          ECall (nvml.CallGetMemoryInfo d m nvml.SUCCESS)]
      ++ map ESend (round_samples i o)
  end.

(** Consecutive rounds, from the index [i] on. *)
Fixpoint rounds_events (i : Z) (os : list Round) : list (Event Device Logger) :=
  match os with
  | [] => []
  | o :: os' => round_events i o ++ rounds_events (i + 1) os'
  end.

Fixpoint rounds_calls (i : Z) (os : list Round) : list Call :=
  match os with
  | [] => []
  | o :: os' => round_calls i o ++ rounds_calls (i + 1) os'
  end.

Fixpoint rounds_samples (i : Z) (os : list Round) : list prometheus.Metric :=
  match os with
  | [] => []
  | o :: os' => round_samples i o ++ rounds_samples (i + 1) os'
  end.

(** The device a round has read, if it has. *)
Definition round_reading (i : Z) (o : Round) : list Reading :=
  match o with
  | Collected _ n rn u t m => [mkReading i (nameLabel n rn) u t m]
  | _ => []
  end.

Fixpoint rounds_readings (i : Z) (os : list Round) : list Reading :=
  match os with
  | [] => []
  | o :: os' => round_reading i o ++ rounds_readings (i + 1) os'
  end.

(** The rounds the library leads to: what it answers, read off the library
    itself, from the library state [n] on. *)
Context {St : Type}.
Variable lib : nvml.Library St Device.

Definition round_of (i : Z) (n : St) : Round * St :=
  let '((d, r), n1) := nvml.DeviceGetHandleByIndex lib i n in
  if nvml.failed r then (NoHandle d r, n1) else
  let '((name, rn), n2) := nvml.GetName lib d n1 in
  let '((u, r), n3) := nvml.GetUtilizationRates lib d n2 in
  if nvml.failed r then (NoUtilization d name rn u r, n3) else
  let '((t, r), n4) := nvml.GetTemperature lib d nvml.TEMPERATURE_GPU n3 in
  if nvml.failed r then (NoTemperature d name rn u t r, n4) else
  let '((m, r), n5) := nvml.GetMemoryInfo lib d n4 in
  if nvml.failed r then (NoMemory d name rn u t m r, n5) else
  (Collected d name rn u t m, n5).

(** At most [k] rounds from the index [i] on: a round that panics is the
    last. *)
Fixpoint rounds_of (k : nat) (i : Z) (n : St) : list Round * St :=
  match k with
  | O => ([], n)
  | S k' =>
      let (o, n1) := round_of i n in
      if round_panics o then ([o], n1) else
      let (os, n2) := rounds_of k' (i + 1) n1 in
      (o :: os, n2)
  end.

End Rounds.

(** ** Observations on a whole run

    More vocabulary for what a run of [Update] shows from outside: the
    return code of a call, the record a failed call is logged with, the
    order in which the library may be asked, the identity of a sample. *)

Section Observations.

Context {Device : Type}.

(** The return code a call was answered with. *)
Definition call_ret (c : nvml.Call Device) : nvml.Return :=
  match c with
  | nvml.CallInit r
  | nvml.CallDeviceGetCount _ r
  | nvml.CallDeviceGetHandleByIndex _ _ r
  | nvml.CallGetName _ _ r
  | nvml.CallGetUtilizationRates _ _ r
  | nvml.CallGetTemperature _ _ _ r
  | nvml.CallGetMemoryInfo _ _ r => r
  end.

Definition call_failed (c : nvml.Call Device) : bool :=
  nvml.failed (call_ret c).

(** A successful read of the memory of a device. *)
Definition memory_read (c : nvml.Call Device) : bool :=
  match c with
  | nvml.CallGetMemoryInfo _ _ r => negb (nvml.failed r)
  | _ => false
  end.

Definition is_count (c : nvml.Call Device) : bool :=
  match c with
  | nvml.CallDeviceGetCount _ _ => true
  | _ => false
  end.

(** The devices read, as the calls show them: a reading is complete at a
    successful read of the memory; its index is that of the last handle
    asked for, its name, utilization and temperature those last read, the
    name replaced by "unknown" when its read failed. *)
Fixpoint readings_from (i : Z) (name : string) (u : nvml.Utilization) (t : Z)
         (cs : list (nvml.Call Device)) : list Reading :=
  match cs with
  | [] => []
  | c :: cs' =>
      match c with
      | nvml.CallDeviceGetHandleByIndex j _ _ => readings_from j name u t cs'
      | nvml.CallGetName _ n r => readings_from i (nameLabel n r) u t cs'
      | nvml.CallGetUtilizationRates _ u' _ => readings_from i name u' t cs'
      | nvml.CallGetTemperature _ _ t' _ => readings_from i name u t' cs'
      | nvml.CallGetMemoryInfo _ m r =>
          (if nvml.failed r then [] else [mkReading i name u t m])
          ++ readings_from i name u t cs'
      | _ => readings_from i name u t cs'
      end
  end.

Definition readings (cs : list (nvml.Call Device)) : list Reading :=
  readings_from 0 "" (nvml.mkUtilization 0 0) 0 cs.

(** A reading whose name can label a sample. *)
Definition labelled (rd : Reading) : bool := utf8.ValidString (r_name rd).

(** The record with which [Update] logs the failure of the call [c], made
    in the round of the index [i]: the messages and keys of the source. *)
Definition failure_record (i : Z) (c : nvml.Call Device) : list slog.Record_ :=
  let kv r := [("gpu_index", slog.IntValue i); ("return", slog.AnyValue r)] in
  match c with
  | nvml.CallInit _ => []
  | nvml.CallDeviceGetCount _ r =>
      [slog.mkRecord slog.LevelError "failed to get GPU count"
                     [("return", slog.AnyValue r)]]
  | nvml.CallDeviceGetHandleByIndex _ _ r =>
      [slog.mkRecord slog.LevelWarn "failed to get handle for GPU device" (kv r)]
  | nvml.CallGetName _ _ r =>
      [slog.mkRecord slog.LevelWarn "failed to get GPU name" (kv r)]
  | nvml.CallGetUtilizationRates _ _ r =>
      [slog.mkRecord slog.LevelWarn "failed to get GPU utilization" (kv r)]
  | nvml.CallGetTemperature _ _ _ r =>
      [slog.mkRecord slog.LevelWarn "failed to get GPU temperature" (kv r)]
  | nvml.CallGetMemoryInfo _ _ r =>
      [slog.mkRecord slog.LevelWarn "failed to get GPU memory info" (kv r)]
  end.

(** One record for each failed call of [cs], in order; [i] is the index of
    the last handle asked for. *)
Fixpoint failure_records (i : Z) (cs : list (nvml.Call Device))
  : list slog.Record_ :=
  match cs with
  | [] => []
  | c :: cs' =>
      let i' := match c with
                | nvml.CallDeviceGetHandleByIndex j _ _ => j
                | _ => i
                end in
      (if call_failed c then failure_record i' c else [])
      ++ failure_records i' cs'
  end.

(** How far the reading of a device has got. *)
Inductive Stage : Type :=
| Idle
| HaveHandle (device : Device)
| HaveName (device : Device)
| HaveUtilization (device : Device)
| HaveTemperature (device : Device).

(** The discipline of handles: a handle is asked for when no device is
    being read; then name, utilization, temperature and memory are read in
    this order from the handle just obtained, and from no other; a refused
    handle is not used, and a failed read of utilization, temperature or
    memory ends the reading of the device.  The calls end with no device
    half read. *)
Fixpoint follows (st : Stage) (cs : list (nvml.Call Device)) : Prop :=
  match cs with
  | [] => match st with Idle => True | _ => False end
  | c :: cs' =>
      match st, c with
      | Idle, nvml.CallDeviceGetHandleByIndex _ d r =>
          follows (if nvml.failed r then Idle else HaveHandle d) cs'
      | HaveHandle d, nvml.CallGetName d' _ _ =>
          d' = d /\ follows (HaveName d) cs'
      | HaveName d, nvml.CallGetUtilizationRates d' _ r =>
          d' = d /\ follows (if nvml.failed r then Idle else HaveUtilization d) cs'
      | HaveUtilization d, nvml.CallGetTemperature d' _ _ r =>
          d' = d /\ follows (if nvml.failed r then Idle else HaveTemperature d) cs'
      | HaveTemperature d, nvml.CallGetMemoryInfo d' _ _ =>
          d' = d /\ follows Idle cs'
      | _, _ => False
      end
  end.

End Observations.

(** What identifies a sample in a scrape: the name of its metric and the
    values of its labels. *)
Definition identity (m : prometheus.Metric) : string * list string :=
  (prometheus.fqName (prometheus.desc m), prometheus.labelValues m).

Section Scrapes.

Context {St Device Logger : Type}.
Variable lib : nvml.Library St Device.

(** The state after [n] calls of [Update] in a row, when none panics. *)
Fixpoint after_updates (g : ptr) (n : nat)
         (s : State St (gpuCollector Logger))
  : option (State St (gpuCollector Logger)) :=
  match n with
  | O => Some s
  | S n' =>
      match final (Update lib g s) with
      | Some s1 => after_updates g n' s1
      | None => None
      end
  end.

(** A library all of whose names, when read with success, are valid
    UTF-8. *)
Definition good_names : Prop :=
  forall (d : Device) (n : St),
    nvml.failed (snd (fst (nvml.GetName lib d n))) = false ->
    utf8.ValidString (fst (fst (nvml.GetName lib d n))) = true.

End Scrapes.

(** ** A library for tests

    A library answering from a table of devices; its state counts the calls
    made so far.  A handle is the table entry itself. *)

Module mock.

Record Dev : Type := mkDev {
  handleRet : nvml.Return;
  name : string * nvml.Return;
  util : nvml.Utilization * nvml.Return;
  temp : Z * nvml.Return;
  mem : nvml.Memory * nvml.Return
}.

(** The answer for an index out of the table. *)
Definition nodev : Dev :=
  mkDev 2 ("", 2) (nvml.mkUtilization 0 0, 2) (0, 2) (nvml.mkMemory 0 0 0, 2).

Definition lib (initRet : nvml.Return) (count : Z * nvml.Return)
           (devs : list Dev) : nvml.Library nat Dev :=
  {| nvml.Init := fun n => (initRet, S n);
     nvml.DeviceGetCount := fun n => (count, S n);
     nvml.DeviceGetHandleByIndex := fun i n =>
       let d := nth (Z.to_nat i) devs nodev in ((d, handleRet d), S n);
     nvml.GetName := fun d n => (name d, S n);
     nvml.GetUtilizationRates := fun d n => (util d, S n);
     nvml.GetTemperature := fun d _ n => (temp d, S n);
     nvml.GetMemoryInfo := fun d n => (mem d, S n) |}.

(** A device all of whose reads succeed. *)
Definition good (nm : string) (u t total used free : Z) : Dev :=
  mkDev nvml.SUCCESS (nm, nvml.SUCCESS)
        (nvml.mkUtilization u 0, nvml.SUCCESS) (t, nvml.SUCCESS)
        (nvml.mkMemory total free used, nvml.SUCCESS).

(** The two devices of the end-to-end test. *)
Definition devA : Dev := good "A" 50 60 100 40 60.
Definition devB : Dev := good "B" 10 30 200 0 200.

(** Devices that fail: no handle; no name; no temperature. *)
Definition devNoHandle : Dev :=
  mkDev 6 ("C", nvml.SUCCESS) (nvml.mkUtilization 5 0, nvml.SUCCESS)
        (40, nvml.SUCCESS) (nvml.mkMemory 300 200 100, nvml.SUCCESS).

Definition devNoName : Dev :=
  mkDev nvml.SUCCESS ("", 999) (nvml.mkUtilization 70 0, nvml.SUCCESS)
        (80, nvml.SUCCESS) (nvml.mkMemory 400 100 300, nvml.SUCCESS).

Definition devNoTemp : Dev :=
  mkDev nvml.SUCCESS ("T", nvml.SUCCESS) (nvml.mkUtilization 90 0, nvml.SUCCESS)
        (0, 3) (nvml.mkMemory 500 250 250, nvml.SUCCESS).

(** The library of the end-to-end test, and others. *)
Definition libAB : nvml.Library nat Dev := lib nvml.SUCCESS (2, nvml.SUCCESS) [devA; devB].
Definition libNone : nvml.Library nat Dev := lib nvml.SUCCESS (0, nvml.SUCCESS) [].
Definition libDown : nvml.Library nat Dev := lib 9 (0, 9) [].
Definition libThree : nvml.Library nat Dev :=
  lib nvml.SUCCESS (3, nvml.SUCCESS) [devA; devNoHandle; devB].
Definition libNoName : nvml.Library nat Dev :=
  lib nvml.SUCCESS (1, nvml.SUCCESS) [devNoName].
Definition libNoTemp : nvml.Library nat Dev :=
  lib nvml.SUCCESS (2, nvml.SUCCESS) [devNoTemp; devB].

(** A device whose name and memory reads fail, a library with it and a
    refused handle, and a library reporting a negative count. *)
Definition devNoNameNoMemory : Dev :=
  mkDev nvml.SUCCESS ("", 999) (nvml.mkUtilization 20 0, nvml.SUCCESS)
        (55, nvml.SUCCESS) (nvml.mkMemory 0 0 0, 15).

Definition libFaulty : nvml.Library nat Dev :=
  lib nvml.SUCCESS (3, nvml.SUCCESS) [devNoNameNoMemory; devNoHandle; devB].

Definition libNegative : nvml.Library nat Dev :=
  lib nvml.SUCCESS (-1, nvml.SUCCESS) [].

(** A device all of whose reads succeed and whose name is the single byte
    0xFF, which is not valid UTF-8; a library with it alone, and one with it
    after a refused handle. *)
Definition devBadName : Dev :=
  mkDev nvml.SUCCESS (String "255"%char "", nvml.SUCCESS)
        (nvml.mkUtilization 33 0, nvml.SUCCESS) (44, nvml.SUCCESS)
        (nvml.mkMemory 900 500 400, nvml.SUCCESS).

Definition libBadName : nvml.Library nat Dev :=
  lib nvml.SUCCESS (1, nvml.SUCCESS) [devBadName].

Definition libRefusedBadName : nvml.Library nat Dev :=
  lib nvml.SUCCESS (2, nvml.SUCCESS) [devNoHandle; devBadName].

(** The table of [libRefusedBadName], as functions of the index. *)
Definition refusedBad (j : Z) : Dev :=
  nth (Z.to_nat j) [devNoHandle; devBadName] nodev.

(** A library answering from the same kind of table, whose handles are the
    indices themselves. *)
Definition table (initRet : nvml.Return) (count : Z * nvml.Return)
           (devs : list Dev) : nvml.Library nat Z :=
  {| nvml.Init := fun n => (initRet, S n);
     nvml.DeviceGetCount := fun n => (count, S n);
     nvml.DeviceGetHandleByIndex := fun i n =>
       ((i, handleRet (nth (Z.to_nat i) devs nodev)), S n);
     nvml.GetName := fun d n => (name (nth (Z.to_nat d) devs nodev), S n);
     nvml.GetUtilizationRates := fun d n =>
       (util (nth (Z.to_nat d) devs nodev), S n);
     nvml.GetTemperature := fun d _ n =>
       (temp (nth (Z.to_nat d) devs nodev), S n);
     nvml.GetMemoryInfo := fun d n =>
       (mem (nth (Z.to_nat d) devs nodev), S n) |}.

Definition tableAB : nvml.Library nat Z :=
  table nvml.SUCCESS (2, nvml.SUCCESS) [devA; devB].

(** The table of [libThree], as functions of the index. *)
Definition three (j : Z) : Dev := nth (Z.to_nat j) [devA; devNoHandle; devB] nodev.

(** A state in which the pointer [0] is a collector built for the
    namespace "node", with the unit logger; and one, later in the life of
    the library, in which that collector is the second object. *)
Definition state0 : State nat (gpuCollector unit) :=
  mkState 0%nat [newCollector "node" tt].

Definition state1 : State nat (gpuCollector unit) :=
  mkState 41%nat [newCollector "other" tt; newCollector "node" tt].

(** The state of a process that has allocated nothing yet. *)
Definition fresh : State nat (gpuCollector unit) := mkState 0%nat [].

End mock.

(** * Properties *)

(** ** Decimal indices *)

Lemma to_int_not_nil (i : Z) :
  Z.to_int i <> Decimal.Pos Decimal.Nil /\ Z.to_int i <> Decimal.Neg Decimal.Nil.
Proof.
  destruct i as [|p|p]; simpl; split; try discriminate;
    intros E; injection E as E; now apply DecimalPos.Unsigned.to_uint_nonnil in E.
Qed.

(** [strconv.Itoa] gives different integers different strings. *)
Lemma Itoa_inj (i j : Z) : strconv.Itoa i = strconv.Itoa j -> i = j.
Proof.
  unfold strconv.Itoa. intros E.
  apply (f_equal NilZero.int_of_string) in E.
  destruct (to_int_not_nil i) as [Hi1 Hi2], (to_int_not_nil j) as [Hj1 Hj2].
  rewrite !NilZero.isi in E by assumption.
  injection E as E. now apply DecimalZ.to_int_inj.
Qed.

Lemma Itoa_eqb (i j : Z) :
  String.eqb (strconv.Itoa i) (strconv.Itoa j) = (i =? j).
Proof.
  destruct (Z.eqb_spec i j) as [->|N].
  - apply String.eqb_refl.
  - apply String.eqb_neq. intros E. now apply Itoa_inj in E.
Qed.

(** A decimal is made of ASCII characters: it is valid UTF-8. *)
Lemma ValidString_uint (d : Decimal.uint) :
  utf8.ValidString (NilEmpty.string_of_uint d) = true.
Proof. induction d; simpl; auto. Qed.

Lemma ValidString_Itoa (i : Z) : utf8.ValidString (strconv.Itoa i) = true.
Proof.
  unfold strconv.Itoa, NilZero.string_of_int, NilZero.string_of_uint.
  destruct (Z.to_int i) as [d|d]; destruct d; simpl;
    auto using ValidString_uint.
Qed.

(** [utf8.ValidString] on some encodings: ASCII, two, three and four bytes;
    and on a byte that is no lead byte, an overlong form, a surrogate, a
    cut sequence, a code point above U+10FFFF and a lone continuation
    byte. *)
Example ValidString_examples :
  map utf8.ValidString
      [ "A";
        String "195"%char (String "169"%char "");
        String "226"%char (String "130"%char (String "172"%char ""));
        String "240"%char (String "159"%char (String "152"%char (String "128"%char "")));
        "unknown" ]
  = [true; true; true; true; true]
  /\ map utf8.ValidString
         [ String "255"%char "";
           String "192"%char (String "128"%char "");
           String "237"%char (String "160"%char (String "128"%char ""));
           String "226"%char (String "130"%char "");
           String "244"%char (String "144"%char (String "128"%char (String "128"%char "")));
           String "128"%char "" ]
     = [false; false; false; false; false; false].
Proof. split; reflexivity. Qed.

(** ** Projections of traces *)

Section Traces.

Context {Device Logger : Type}.
Implicit Types t : list (Event Device Logger).

Lemma samples_app t1 t2 : samples (t1 ++ t2) = samples t1 ++ samples t2.
Proof. apply flat_map_app. Qed.

Lemma calls_app t1 t2 : calls (t1 ++ t2) = calls t1 ++ calls t2.
Proof. apply flat_map_app. Qed.

Lemma samples_send (ms : list prometheus.Metric) :
  samples (map (@ESend Device Logger) ms) = ms.
Proof. induction ms as [|m ms IH]; simpl; [reflexivity | now f_equal]. Qed.

Lemma calls_send (ms : list prometheus.Metric) :
  calls (map (@ESend Device Logger) ms) = [].
Proof. induction ms as [|m ms IH]; simpl; [reflexivity | assumption]. Qed.

Variable c : gpuCollector Logger.

Lemma calls_nameWarn i rn : calls (nameWarn c i rn) = @nil (nvml.Call Device).
Proof. unfold nameWarn. now destruct (nvml.failed rn). Qed.

Lemma samples_nameWarn i rn : samples (@nameWarn Device Logger c i rn) = [].
Proof. unfold nameWarn. now destruct (nvml.failed rn). Qed.

Lemma calls_round_events i (o : @Round Device) :
  calls (round_events c i o) = round_calls i o.
Proof.
  destruct o; cbn [round_events round_calls allReads];
    repeat rewrite calls_app;
    rewrite ?calls_nameWarn, ?calls_send; reflexivity.
Qed.

Lemma samples_round_events i (o : @Round Device) :
  samples (round_events c i o) = round_samples c i o.
Proof.
  destruct o; cbn [round_events];
    repeat rewrite samples_app;
    rewrite ?samples_nameWarn, ?samples_send; reflexivity.
Qed.

Lemma events_ends {St A} p (a : A) (s : State St (gpuCollector Logger)) t :
  events (ends p a s t) = t.
Proof. now destruct p. Qed.

Lemma result_ends {St A} p (a : A) (s : State St (gpuCollector Logger)) t :
  result (ends p a s t) = if p then None else Some a.
Proof. now destruct p. Qed.

Lemma last_state_ends {St A} p (a : A) (s : State St (gpuCollector Logger)) t :
  last_state (ends p a s t) = s.
Proof. now destruct p. Qed.

Lemma calls_rounds_events i (os : list (@Round Device)) :
  calls (rounds_events c i os) = rounds_calls i os.
Proof.
  revert i. induction os as [|o os IH]; intros i; simpl; [reflexivity|].
  now rewrite calls_app, calls_round_events, IH.
Qed.

Lemma samples_rounds_events i (os : list (@Round Device)) :
  samples (rounds_events c i os) = rounds_samples c i os.
Proof.
  revert i. induction os as [|o os IH]; intros i; simpl; [reflexivity|].
  now rewrite samples_app, samples_round_events, IH.
Qed.

End Traces.

(** ** The run of [Update], as an equation *)

Section Run.

Context {St Device Logger : Type}.
Variable lib : nvml.Library St Device.
Variable namespace : string.
Variable l : Logger.

Abbreviation col := (newCollector namespace l).

Implicit Types s : State St (gpuCollector Logger).

(** One round makes the calls, and has the events, of [round_of]; it
    panics when the name of a device read is not valid UTF-8. *)
Lemma Update_device_run g i s :
  nth_error (heap s) g = Some col ->
  Update_device lib g i s =
  ends (round_panics (fst (round_of lib i (nvmlState s)))) tt
       (mkState (snd (round_of lib i (nvmlState s))) (heap s))
       (round_events col i (fst (round_of lib i (nvmlState s)))).
Proof.
  intros Hg. pose proof (ValidString_Itoa i) as VI.
  unfold Update_device, round_of.
  unfold nvml_DeviceGetHandleByIndex, device_GetName,
    device_GetUtilizationRates, device_GetTemperature, device_GetMemoryInfo,
    logger_Warn, bind, call, load, log, ret, send, must.
  destruct s as [n h]; simpl in *.
  destruct (nvml.DeviceGetHandleByIndex lib i n) as [[d r] n1]; simpl.
  destruct (nvml.failed r) eqn:Fr; simpl.
  { rewrite Hg. reflexivity. }
  apply negb_false_iff, Z.eqb_eq in Fr; subst r.
  destruct (nvml.GetName lib d n1) as [[nm rn] n2]; simpl.
  assert (Hname : exists lbl, lbl = nameLabel nm rn) by now eexists.
  destruct Hname as (lbl & Hlbl).
  destruct (nvml.failed rn) eqn:Frn; simpl; rewrite ?Hg; simpl;
    destruct (nvml.GetUtilizationRates lib d n2) as [[u r] n3]; simpl;
    (destruct (nvml.failed r) eqn:Fr; simpl;
     [ rewrite Hg; unfold nameWarn; rewrite Frn; reflexivity |]);
    apply negb_false_iff, Z.eqb_eq in Fr; subst r;
    destruct (nvml.GetTemperature lib d nvml.TEMPERATURE_GPU n3) as [[t r] n4]; simpl;
    (destruct (nvml.failed r) eqn:Fr; simpl;
     [ rewrite Hg; unfold nameWarn; rewrite Frn; reflexivity |]);
    apply negb_false_iff, Z.eqb_eq in Fr; subst r;
    destruct (nvml.GetMemoryInfo lib d n4) as [[m r] n5]; simpl;
    (destruct (nvml.failed r) eqn:Fr; simpl;
     [ rewrite Hg; unfold nameWarn; rewrite Frn; reflexivity |]);
    apply negb_false_iff, Z.eqb_eq in Fr; subst r;
    unfold prometheus.MustNewConstMetric, nameWarn, nameLabel in *;
    rewrite Frn in *; subst lbl; simpl;
    rewrite ?VI; simpl;
    [ repeat (rewrite ?Hg, ?VI; simpl); reflexivity |];
    destruct (utf8.ValidString nm) eqn:V; simpl;
    repeat (rewrite ?Hg, ?VI, ?V; simpl); reflexivity.
Qed.

(** The loop makes the rounds of [rounds_of], and panics when one of them
    does. *)
Lemma for_steps_run g k : forall i s,
  nth_error (heap s) g = Some col ->
  for_steps k i (Update_device lib g) s =
  ends (existsb round_panics (fst (rounds_of lib k i (nvmlState s)))) tt
       (mkState (snd (rounds_of lib k i (nvmlState s))) (heap s))
       (rounds_events col i (fst (rounds_of lib k i (nvmlState s)))).
Proof.
  induction k as [|k IH]; intros i s Hg; simpl.
  - destruct s; reflexivity.
  - unfold bind. rewrite (Update_device_run g i s Hg).
    destruct (round_of lib i (nvmlState s)) as [o n1]; simpl.
    destruct (round_panics o) eqn:P; simpl.
    + rewrite P. simpl. now rewrite app_nil_r.
    + rewrite IH by exact Hg. simpl.
      destruct (rounds_of lib k (i + 1) n1) as [os n2]; simpl.
      rewrite P. simpl. now destruct (existsb round_panics os).
Qed.

(** The four ways [Update] ends: the count query fails, there is no
    device, the loop panics, or the loop ends and [Update] returns nil. *)
Lemma Update_run g s :
  nth_error (heap s) g = Some col ->
  Update lib g s =
  let '((count, r), n1) := nvml.DeviceGetCount lib (nvmlState s) in
  if nvml.failed r then
    Returns (Some (fmt_Errorf "could not retrieve GPU count: %v" r))
            (mkState n1 (heap s))
            [ECall (nvml.CallDeviceGetCount count r);
             ELog l (slog.mkRecord slog.LevelError "failed to get GPU count"
                       [("return", slog.AnyValue r)])]
  else if count =? 0 then
    Returns (Some (errors_New "no NVIDIA GPUs found"))
            (mkState n1 (heap s))
            [ECall (nvml.CallDeviceGetCount count r)]
  else
    ends (existsb round_panics (fst (rounds_of lib (Z.to_nat count) 0 n1)))
         None
         (mkState (snd (rounds_of lib (Z.to_nat count) 0 n1)) (heap s))
         (ECall (nvml.CallDeviceGetCount count r)
          :: rounds_events col 0 (fst (rounds_of lib (Z.to_nat count) 0 n1))).
Proof.
  intros Hg. unfold Update, nvml_DeviceGetCount, bind at 1, call.
  destruct (nvml.DeviceGetCount lib (nvmlState s)) as [[count r] n1]; simpl.
  destruct (nvml.failed r).
  - unfold bind, load, logger_Error, log, ret; simpl. rewrite Hg. reflexivity.
  - destruct (count =? 0).
    + reflexivity.
    + unfold bind, for_range, ret. rewrite Z.sub_0_r.
      rewrite for_steps_run by exact Hg. simpl.
      destruct (existsb round_panics (fst (rounds_of lib (Z.to_nat count) 0 n1)));
        simpl; [reflexivity | now rewrite app_nil_r].
Qed.

(** Each round of [rounds_of] was stopped by a failure or is complete. *)
Lemma round_of_wf i n : round_wf (fst (round_of lib i n)) = true.
Proof.
  unfold round_of.
  destruct (nvml.DeviceGetHandleByIndex lib i n) as [[d r] n1].
  destruct (nvml.failed r) eqn:F; [exact F|].
  destruct (nvml.GetName lib d n1) as [[nm rn] n2].
  destruct (nvml.GetUtilizationRates lib d n2) as [[u r1] n3].
  destruct (nvml.failed r1) eqn:F1; [exact F1|].
  destruct (nvml.GetTemperature lib d nvml.TEMPERATURE_GPU n3) as [[t r2] n4].
  destruct (nvml.failed r2) eqn:F2; [exact F2|].
  destruct (nvml.GetMemoryInfo lib d n4) as [[m r3] n5].
  destruct (nvml.failed r3) eqn:F3; [exact F3|].
  reflexivity.
Qed.

Lemma rounds_of_wf k : forall i n,
  forallb round_wf (fst (rounds_of lib k i n)) = true.
Proof.
  induction k as [|k IH]; intros i n; simpl; [reflexivity|].
  pose proof (round_of_wf i n) as W.
  destruct (round_of lib i n) as [o n1]. specialize (IH (i + 1) n1).
  simpl in W. destruct (round_panics o); simpl; [now rewrite W|].
  destruct (rounds_of lib k (i + 1) n1) as [os n2]; simpl in *.
  now rewrite W, IH.
Qed.

(** The rounds made are [k], none of which panics, or fewer, the last of
    which panics, and the only one. *)
Lemma rounds_of_shape k : forall i n,
  (existsb round_panics (fst (rounds_of lib k i n)) = false
   /\ List.length (fst (rounds_of lib k i n)) = k)
  \/ (exists os1 o,
        fst (rounds_of lib k i n) = os1 ++ [o]
        /\ existsb round_panics os1 = false
        /\ round_panics o = true
        /\ (List.length (os1 ++ [o]) <= k)%nat).
Proof.
  induction k as [|k IH]; intros i n; simpl; [now left|].
  destruct (round_of lib i n) as [o n1].
  destruct (round_panics o) eqn:P; simpl.
  - right. exists [], o. simpl. repeat split; try assumption. lia.
  - specialize (IH (i + 1) n1).
    destruct (rounds_of lib k (i + 1) n1) as [os n2]; simpl in *.
    rewrite P. simpl.
    destruct IH as [[H1 H2]|(os1 & o' & -> & H1 & H2 & H3)].
    + left. split; [assumption | now rewrite H2].
    + right. exists (o :: os1), o'. simpl. rewrite P.
      repeat split; try assumption. lia.
Qed.

Lemma rounds_of_length_le k i n :
  (List.length (fst (rounds_of lib k i n)) <= k)%nat.
Proof.
  destruct (rounds_of_shape k i n) as [[_ H]|(os1 & o & -> & _ & _ & H)]; lia.
Qed.


(** A round that does not panic and has no round after it is the last of
    the [k] asked. *)
Lemma rounds_of_last k i n os1 o :
  fst (rounds_of lib k i n) = os1 ++ [o] ->
  round_panics o = false ->
  List.length (os1 ++ [o]) = k.
Proof.
  intros E P.
  destruct (rounds_of_shape k i n) as [[_ L]|(os1' & o' & E' & _ & P' & _)].
  - now rewrite <- E.
  - rewrite E in E'. apply app_inj_tail in E' as [_ ->]. congruence.
Qed.

(** With good names no round panics. *)
Lemma round_of_good i n :
  good_names lib -> round_panics (fst (round_of lib i n)) = false.
Proof.
  intros G. unfold round_of.
  destruct (nvml.DeviceGetHandleByIndex lib i n) as [[d r] n1].
  destruct (nvml.failed r); [reflexivity|].
  specialize (G d n1).
  destruct (nvml.GetName lib d n1) as [[nm rn] n2]. simpl in G.
  destruct (nvml.GetUtilizationRates lib d n2) as [[u r1] n3].
  destruct (nvml.failed r1); [reflexivity|].
  destruct (nvml.GetTemperature lib d nvml.TEMPERATURE_GPU n3) as [[t r2] n4].
  destruct (nvml.failed r2); [reflexivity|].
  destruct (nvml.GetMemoryInfo lib d n4) as [[m r3] n5].
  destruct (nvml.failed r3); [reflexivity|].
  simpl. unfold nameLabel.
  destruct (nvml.failed rn); [reflexivity|]. now rewrite G.
Qed.

Lemma rounds_of_good (G : good_names lib) k : forall i n,
  existsb round_panics (fst (rounds_of lib k i n)) = false.
Proof.
  induction k as [|k IH]; intros i n; simpl; [reflexivity|].
  pose proof (round_of_good i n G) as P.
  destruct (round_of lib i n) as [o n1]. simpl in P. rewrite P.
  specialize (IH (i + 1) n1).
  destruct (rounds_of lib k (i + 1) n1) as [os n2]; simpl in *.
  now rewrite P, IH.
Qed.

End Run.

(** ** Rounds and the calls they make *)

Section RoundFacts.

Context {Device Logger : Type}.
Implicit Types o : @Round Device.
Implicit Types os : list (@Round Device).
Implicit Types cs : list (nvml.Call Device).

Lemma failed_SUCCESS : nvml.failed nvml.SUCCESS = false.
Proof. reflexivity. Qed.

Lemma failed_false r : nvml.failed r = false -> r = nvml.SUCCESS.
Proof. intros F. now apply negb_false_iff, Z.eqb_eq in F. Qed.

(** The calls of a round tell the round: no round's calls are the
    beginning of another's, since a round goes on exactly when the
    return code is [SUCCESS]. *)
Lemma round_calls_inj i j o1 o2 cs1 cs2 :
  round_wf o1 = true -> round_wf o2 = true ->
  round_calls i o1 ++ cs1 = round_calls j o2 ++ cs2 ->
  i = j /\ o1 = o2 /\ cs1 = cs2.
Proof.
  intros W1 W2 E.
  destruct o1, o2; simpl in *; unfold allReads in E; simpl in E;
    injection E; intros; subst;
    try (rewrite failed_SUCCESS in *; discriminate);
    repeat split; reflexivity.
Qed.

(** A round begins by asking for the handle of its index, and asks for no
    other handle. *)
Lemma round_calls_shape i o :
  exists d r tl,
    round_calls i o = nvml.CallDeviceGetHandleByIndex i d r :: tl
    /\ handleIndices tl = [].
Proof.
  destruct o; simpl; unfold allReads; do 3 eexists; split; reflexivity.
Qed.



(** A list without handle calls in front of [cs] ends before the first
    handle call. *)
Lemma split_at_handle tl : forall cs before i d r rest,
  handleIndices tl = [] ->
  tl ++ cs = before ++ nvml.CallDeviceGetHandleByIndex i d r :: rest ->
  exists before',
    before = tl ++ before'
    /\ cs = before' ++ nvml.CallDeviceGetHandleByIndex i d r :: rest.
Proof.
  induction tl as [|a tl IH]; intros cs before i d r rest Hn E.
  - exists before. now split.
  - destruct before as [|b before]; simpl in E; injection E as Ea E.
    + subst a. discriminate Hn.
    + subst b.
      assert (Hn' : handleIndices tl = []).
      { simpl in Hn. now apply app_eq_nil in Hn. }
      destruct (IH _ _ _ _ _ _ Hn' E) as (before' & -> & ->).
      now exists before'.
Qed.

Lemma rounds_calls_app os1 : forall j os2,
  rounds_calls j (os1 ++ os2)
  = rounds_calls j os1 ++ rounds_calls (j + Z.of_nat (List.length os1)) os2.
Proof.
  induction os1 as [|o os1 IH]; intros j os2; simpl.
  - now rewrite Z.add_0_r.
  - rewrite IH, <- app_assoc. do 3 f_equal. lia.
Qed.

(** A handle call in the calls of consecutive rounds is the beginning of
    the round of its index. *)
Lemma rounds_calls_locate os : forall j before i d r rest,
  rounds_calls j os = before ++ nvml.CallDeviceGetHandleByIndex i d r :: rest ->
  exists os1 o os2,
    os = os1 ++ o :: os2
    /\ i = j + Z.of_nat (List.length os1)
    /\ before = rounds_calls j os1
    /\ round_calls i o ++ rounds_calls (i + 1) os2
       = nvml.CallDeviceGetHandleByIndex i d r :: rest.
Proof.
  induction os as [|o os IH]; intros j before i d r rest E; simpl in E.
  - now destruct before.
  - destruct (round_calls_shape j o) as (d0 & r0 & tl & Ho & Htl).
    destruct before as [|b before].
    + exists [], o, os. rewrite Ho in E. simpl in E.
      injection E as Ei Ed Er E. subst.
      repeat split; simpl; try lia.
      now rewrite Ho.
    + rewrite Ho in E. simpl in E. injection E as Eb E. subst b.
      destruct (split_at_handle _ _ _ _ _ _ _ Htl E) as (before' & -> & E').
      destruct (IH _ _ _ _ _ _ E') as (os1 & o' & os2 & -> & -> & -> & E2).
      exists (o :: os1), o', os2. simpl.
      replace (j + Z.pos (Pos.of_succ_nat (List.length os1)))
        with (j + 1 + Z.of_nat (List.length os1)) by lia.
      repeat split; try assumption.
      now rewrite Ho.
Qed.

(** The calls of the round [o'], found among the calls of consecutive
    rounds, are a round of these, and that round is [o']. *)
Lemma rounds_calls_segment os j before i o' after :
  forallb round_wf os = true -> round_wf o' = true ->
  rounds_calls j os = before ++ round_calls i o' ++ after ->
  exists os1 os2,
    os = os1 ++ o' :: os2
    /\ i = j + Z.of_nat (List.length os1)
    /\ before = rounds_calls j os1
    /\ after = rounds_calls (i + 1) os2.
Proof.
  intros W W' E.
  destruct (round_calls_shape i o') as (d & r & tl & Ho & _).
  pose proof E as E0. rewrite Ho in E0. simpl in E0.
  destruct (rounds_calls_locate _ _ _ _ _ _ _ E0)
    as (os1 & o & os2 & -> & Hi & Hb & E1).
  rewrite forallb_app in W. simpl in W.
  apply andb_true_iff in W as [_ W]. apply andb_true_iff in W as [Wo _].
  change (nvml.CallDeviceGetHandleByIndex i d r :: tl ++ after)
    with ((nvml.CallDeviceGetHandleByIndex i d r :: tl) ++ after) in E1.
  rewrite <- Ho in E1.
  destruct (round_calls_inj _ _ _ _ _ _ Wo W' E1) as (_ & -> & E2).
  exists os1, os2. now repeat split.
Qed.

(** Equal calls, equal rounds. *)
Lemma rounds_calls_inj os1 : forall os2 j,
  forallb round_wf os1 = true -> forallb round_wf os2 = true ->
  rounds_calls j os1 = rounds_calls j os2 -> os1 = os2.
Proof.
  induction os1 as [|o1 os1 IH]; intros [|o2 os2] j W1 W2 E; simpl in *.
  - reflexivity.
  - destruct (round_calls_shape j o2) as (d & r & tl & Ho & _).
    rewrite Ho in E. discriminate.
  - destruct (round_calls_shape j o1) as (d & r & tl & Ho & _).
    rewrite Ho in E. discriminate.
  - apply andb_true_iff in W1 as [Wo1 W1]. apply andb_true_iff in W2 as [Wo2 W2].
    destruct (round_calls_inj _ _ _ _ _ _ Wo1 Wo2 E) as (_ & -> & E').
    f_equal. now apply (IH os2 (j + 1)).
Qed.


End RoundFacts.

(** ** Rounds and the samples they send *)

Section SampleFacts.

Context {Device Logger : Type}.
Variable namespace : string.
Variable l : Logger.

Abbreviation col := (newCollector namespace l).

Implicit Types o : @Round Device.
Implicit Types os : list (@Round Device).

(** The samples of a device carry the index of the device. *)
Lemma filter_deviceSamples i k name u t m :
  filter (has_index i) (deviceSamples col (strconv.Itoa k) name u t m)
  = if k =? i then deviceSamples col (strconv.Itoa k) name u t m else [].
Proof.
  unfold deviceSamples, has_index, label, prometheus.labelPairs. simpl.
  rewrite Itoa_eqb. now destruct (k =? i).
Qed.

Lemma filter_round i k o :
  filter (has_index i) (round_samples col k o)
  = if k =? i then round_samples col k o else [].
Proof.
  destruct o; simpl; try now destruct (k =? i).
  destruct (negb (utf8.ValidString (nameLabel name nameRet)));
    [now destruct (k =? i) | apply filter_deviceSamples].
Qed.

Lemma rounds_samples_app os1 : forall j os2,
  rounds_samples col j (os1 ++ os2)
  = rounds_samples col j os1
    ++ rounds_samples col (j + Z.of_nat (List.length os1)) os2.
Proof.
  induction os1 as [|o os1 IH]; intros j os2; simpl.
  - now rewrite Z.add_0_r.
  - rewrite IH, <- app_assoc. do 3 f_equal. lia.
Qed.

(** Rounds for other indices send no sample with the index [i]. *)
Lemma filter_rounds_other i os : forall j,
  i < j \/ j + Z.of_nat (List.length os) <= i ->
  filter (has_index i) (rounds_samples col j os) = [].
Proof.
  induction os as [|o os IH]; intros j H; simpl; [reflexivity|].
  rewrite filter_app, filter_round, IH by (simpl in H; lia).
  simpl in H. destruct (Z.eqb_spec j i); [lia | reflexivity].
Qed.

(** The samples with the index [i] are those of the round of [i]. *)
Lemma filter_rounds i j os1 o os2 :
  i = j + Z.of_nat (List.length os1) ->
  filter (has_index i) (rounds_samples col j (os1 ++ o :: os2))
  = round_samples col i o.
Proof.
  intros ->. rewrite rounds_samples_app. simpl.
  rewrite !filter_app, filter_round, Z.eqb_refl.
  rewrite !filter_rounds_other by lia.
  now rewrite app_nil_r.
Qed.

Lemma length_round_samples i o :
  List.length (round_samples col i o)
  = match o with
    | Collected _ _ _ _ _ _ => if round_panics o then 0%nat else 6%nat
    | _ => 0%nat
    end.
Proof. destruct o; try reflexivity. simpl. now destruct (negb _). Qed.

End SampleFacts.

(** ** Rounds given by a table *)

Section TableFacts.

Context {Device Logger : Type}.
Variable c : gpuCollector Logger.
Variable R : Z -> @Round Device.

Lemma rounds_calls_map n : forall a,
  rounds_calls (Z.of_nat a) (map R (map Z.of_nat (seq a n)))
  = flat_map (fun j => round_calls j (R j)) (map Z.of_nat (seq a n)).
Proof.
  induction n as [|n IH]; intros a; simpl; [reflexivity|].
  f_equal. rewrite <- IH. f_equal. lia.
Qed.

Lemma rounds_samples_map n : forall a,
  rounds_samples c (Z.of_nat a) (map R (map Z.of_nat (seq a n)))
  = flat_map (fun j => round_samples c j (R j)) (map Z.of_nat (seq a n)).
Proof.
  induction n as [|n IH]; intros a; simpl; [reflexivity|].
  f_equal. rewrite <- IH. f_equal. lia.
Qed.

Lemma forallb_map_wf (js : list Z) :
  (forall j, round_wf (R j) = true) -> forallb round_wf (map R js) = true.
Proof.
  intros W. induction js as [|j js IH]; simpl; [reflexivity|].
  now rewrite W, IH.
Qed.

End TableFacts.

Lemma filter_flat_map {A B} (p : B -> bool) (f : A -> list B) (xs : list A) :
  filter p (flat_map f xs) = flat_map (fun x => filter p (f x)) xs.
Proof.
  induction xs as [|x xs IH]; simpl; [reflexivity|].
  now rewrite filter_app, IH.
Qed.

Lemma flat_map_nil {A B} (f : A -> list B) (xs : list A) :
  (forall x, f x = []) -> flat_map f xs = [].
Proof.
  intros H. induction xs as [|x xs IH]; simpl; [reflexivity|].
  now rewrite H, IH.
Qed.

(** All the indices but [k] contribute six elements each. *)
Lemma length_flat_map_but_one {B} (f : Z -> list B) (k : Z) (n : nat) :
  forall a,
    (forall j, j <> k -> List.length (f j) = 6%nat) ->
    f k = [] ->
    List.length (flat_map f (map Z.of_nat (seq a n)))
    = (6 * n - (if ((Z.of_nat a <=? k) && (k <? Z.of_nat a + Z.of_nat n))%Z
                then 6 else 0))%nat.
Proof.
  induction n as [|n IH]; intros a H6 H0; simpl.
  - now destruct ((Z.of_nat a <=? k) && (k <? Z.of_nat a + 0)).
  - rewrite length_app, (IH (S a) H6 H0).
    destruct (Z.eq_dec (Z.of_nat a) k) as [E|E].
    + replace (f (Z.of_nat a)) with (@nil B) by (now rewrite E, H0).
      destruct (Z.leb_spec (Z.of_nat (S a)) k); [lia|].
      destruct (Z.leb_spec (Z.of_nat a) k); [|lia].
      destruct (Z.ltb_spec k (Z.of_nat a + Z.pos (Pos.of_succ_nat n))); [|lia].
      simpl. lia.
    + rewrite (H6 _ E).
      destruct (Z.leb_spec (Z.of_nat (S a)) k), (Z.leb_spec (Z.of_nat a) k),
        (Z.ltb_spec k (Z.of_nat (S a) + Z.of_nat n)),
        (Z.ltb_spec k (Z.of_nat a + Z.pos (Pos.of_succ_nat n)));
        simpl; lia.
Qed.

Lemma flat_map_ext_in {A B} (f g : A -> list B) (xs : list A) :
  (forall x, In x xs -> f x = g x) -> flat_map f xs = flat_map g xs.
Proof.
  induction xs as [|x xs IH]; intros H; simpl; [reflexivity|].
  rewrite (H x) by now left. rewrite IH; [reflexivity|].
  intros y Hy. apply H. now right.
Qed.

Lemma existsb_map_false {A B} (p : B -> bool) (f : A -> B) (xs : list A) :
  (forall x, In x xs -> p (f x) = false) -> existsb p (map f xs) = false.
Proof.
  induction xs as [|x xs IH]; intros H; simpl; [reflexivity|].
  rewrite (H x) by now left. apply IH. intros y Hy. apply H. now right.
Qed.


Lemma in_indices (N j : Z) : In j (indices N) -> 0 <= j < N.
Proof.
  unfold indices. rewrite in_map_iff. intros (k & <- & Hk).
  apply in_seq in Hk. lia.
Qed.

(** ** Update, seen through the calls it made *)

Section UpdateFacts.

Context {St Device Logger : Type}.
Variable lib : nvml.Library St Device.
Variable namespace : string.
Variable l : Logger.

Abbreviation col := (newCollector namespace l).

Implicit Types s : State St (gpuCollector Logger).

(** When the calls of [Update] contain the calls of a round, [Update] ran
    its loop and that round is one of the rounds it made. *)
Lemma Update_segment g s before i (o : @Round Device) after :
  nth_error (heap s) g = Some col ->
  round_wf o = true ->
  calls (events (Update lib g s)) = before ++ round_calls i o ++ after ->
  exists count os1 os2,
    events (Update lib g s)
    = ECall (nvml.CallDeviceGetCount count nvml.SUCCESS)
      :: rounds_events col 0 (os1 ++ o :: os2)
    /\ (List.length (os1 ++ o :: os2) <= Z.to_nat count)%nat
    /\ (os2 = [] -> round_panics o = false ->
        List.length (os1 ++ [o]) = Z.to_nat count)
    /\ i = Z.of_nat (List.length os1)
    /\ before = nvml.CallDeviceGetCount count nvml.SUCCESS :: rounds_calls 0 os1
    /\ after = rounds_calls (i + 1) os2.
Proof.
  intros Hg W E. rewrite (Update_run lib namespace l g s Hg) in *.
  destruct (nvml.DeviceGetCount lib (nvmlState s)) as [[count r] n1].
  destruct (round_calls_shape i o) as (d & r0 & tl & Ho & _).
  rewrite Ho in E.
  destruct (nvml.failed r) eqn:F; [| destruct (count =? 0)].
  - simpl in E. destruct before as [|b [|b' before]]; discriminate E.
  - simpl in E. destruct before as [|b [|b' before]]; discriminate E.
  - apply failed_false in F. subst r.
    rewrite events_ends in *. simpl in E.
    rewrite calls_rounds_events in E.
    destruct before as [|b before]; [discriminate E|].
    simpl in E. injection E as <- E.
    change (nvml.CallDeviceGetHandleByIndex i d r0 :: tl ++ after)
      with ((nvml.CallDeviceGetHandleByIndex i d r0 :: tl) ++ after) in E.
    rewrite <- Ho in E.
    pose proof (rounds_of_wf lib (Z.to_nat count) 0 n1) as Wos.
    pose proof (rounds_of_length_le lib (Z.to_nat count) 0 n1) as Los.
    destruct (rounds_calls_segment _ _ _ _ _ _ Wos W E)
      as (os1 & os2 & Eos & Hi & Hb & Ha).
    exists count, os1, os2.
    rewrite <- Eos. repeat split; try assumption.
    + intros -> P. exact (rounds_of_last lib _ _ _ _ _ Eos P).
    + now rewrite Hb.
Qed.

(** When the calls of [Update] are a count followed by the calls of the
    rounds [os], not empty, [Update] made exactly these rounds; it
    returned nil unless one of them panics. *)
Lemma Update_rounds g s count (os : list (@Round Device)) :
  nth_error (heap s) g = Some col ->
  forallb round_wf os = true -> os <> [] ->
  calls (events (Update lib g s))
  = nvml.CallDeviceGetCount count nvml.SUCCESS :: rounds_calls 0 os ->
  events (Update lib g s)
  = ECall (nvml.CallDeviceGetCount count nvml.SUCCESS) :: rounds_events col 0 os
  /\ result (Update lib g s)
     = (if existsb round_panics os then None else Some None).
Proof.
  intros Hg W Hne E. rewrite (Update_run lib namespace l g s Hg) in *.
  destruct (nvml.DeviceGetCount lib (nvmlState s)) as [[count' r] n1].
  assert (Hos : exists d r0 tl,
             rounds_calls 0 os = nvml.CallDeviceGetHandleByIndex 0 d r0 :: tl).
  { destruct os as [|o os]; [contradiction|]. simpl.
    destruct (round_calls_shape 0 o) as (d & r0 & tl & -> & _).
    now exists d, r0, (tl ++ rounds_calls (0 + 1) os). }
  destruct Hos as (d & r0 & tl & Hos).
  destruct (nvml.failed r) eqn:F; [| destruct (count' =? 0)].
  - simpl in E. rewrite Hos in E. discriminate E.
  - simpl in E. rewrite Hos in E. discriminate E.
  - rewrite events_ends, result_ends in *. simpl in E.
    rewrite calls_rounds_events in E. injection E as -> -> E.
    pose proof (rounds_of_wf lib (Z.to_nat count) 0 n1) as Wos.
    apply rounds_calls_inj in E; [| assumption | assumption].
    rewrite E. split; reflexivity.
Qed.

(** The samples [Update] sends for a device whose five reads the library
    answered as in [allReads], when the name it is to be labelled with is
    valid UTF-8. *)
Lemma Update_allReads g s before i device name nameRet util temp mem after :
  nth_error (heap s) g = Some col ->
  utf8.ValidString (nameLabel name nameRet) = true ->
  calls (events (Update lib g s))
  = before ++ allReads i device name nameRet util temp mem ++ after ->
  samplesFor i (events (Update lib g s))
  = deviceSamples col (strconv.Itoa i) (nameLabel name nameRet) util temp mem.
Proof.
  intros Hg V E.
  destruct (Update_segment g s before i
              (Collected device name nameRet util temp mem) after Hg eq_refl E)
    as (count & os1 & os2 & -> & _ & _ & Hi & _ & _).
  unfold samplesFor.
  change (samples (ECall ?x :: ?t)) with (samples t).
  rewrite samples_rounds_events.
  rewrite (filter_rounds namespace l i 0 os1 _ os2) by lia.
  simpl. now rewrite V.
Qed.

End UpdateFacts.

(** ** What all samples and all calls of the rounds share *)

Section AllRounds.

Context {Device Logger : Type}.
Variable c : gpuCollector Logger.

Implicit Types os : list (@Round Device).

Lemma Forall_rounds_samples (P : prometheus.Metric -> Prop) :
  (forall gpuIndex name u t m, Forall P (deviceSamples c gpuIndex name u t m)) ->
  forall os j, Forall P (rounds_samples c j os).
Proof.
  intros H os. induction os as [|o os IH]; intros j; simpl; [constructor|].
  apply Forall_app. split; [| apply IH].
  destruct o; simpl; try constructor.
  destruct (negb (utf8.ValidString (nameLabel name nameRet)));
    [constructor | apply H].
Qed.

Lemma rounds_calls_queries os : forall j,
  forallb is_query (rounds_calls j os) = true.
Proof.
  induction os as [|o os IH]; intros j; simpl; [reflexivity|].
  rewrite forallb_app, IH, andb_true_r. now destruct o.
Qed.



(** The same, for the devices whose samples are sent. *)
Lemma rounds_samples_readings os : forall j,
  exists rds : list Reading,
    rounds_samples c j os = flat_map (readingSamples c) rds
    /\ StronglySorted Z.lt (map r_index rds)
    /\ Forall (fun x => j <= x < j + Z.of_nat (List.length os))
              (map r_index rds).
Proof.
  induction os as [|o os IH]; intros j.
  - exists []. simpl. repeat split; constructor.
  - destruct (IH (j + 1)) as (rds & E & Hs & Hr).
    assert (Hr' : Forall (fun x => j <= x < j + Z.of_nat (List.length (o :: os)))
                         (map r_index rds)).
    { eapply Forall_impl; [| exact Hr]. simpl. intros x Hx. lia. }
    destruct o;
      try (exists rds; simpl; rewrite E; now repeat split).
    simpl. destruct (negb (utf8.ValidString (nameLabel name nameRet))).
    { exists rds. simpl. rewrite E. now repeat split. }
    exists (mkReading j (nameLabel name nameRet) util temp mem :: rds).
    simpl. rewrite E. repeat split.
    + constructor; [assumption|].
      eapply Forall_impl; [| exact Hr]. simpl. intros x Hx. lia.
    + constructor; [lia | assumption].
Qed.

(** The devices read can be told from the calls. *)
Lemma readings_rounds os : forall j i0 nm u t,
  forallb round_wf os = true ->
  readings_from i0 nm u t (rounds_calls j os) = rounds_readings j os.
Proof.
  induction os as [|o os IH]; intros j i0 nm u t W; simpl; [reflexivity|].
  simpl in W. apply andb_true_iff in W as [Wo W].
  destruct o; simpl in Wo; simpl; rewrite ?Wo; simpl; now rewrite IH.
Qed.

(** A round panics when the device it read cannot be labelled. *)
Lemma rounds_panic_readings os : forall j,
  existsb round_panics os
  = existsb (fun rd => negb (labelled rd)) (rounds_readings j os).
Proof.
  induction os as [|o os IH]; intros j; simpl; [reflexivity|].
  rewrite existsb_app, <- IH. f_equal.
  destruct o; simpl; try reflexivity. now rewrite orb_false_r.
Qed.

End AllRounds.

(** * The contract of the collector *)

Section Contract.

Context {St Device Logger : Type}.
Variable lib : nvml.Library St Device.
Variable namespace : string.
Variable l : Logger.

Abbreviation col := (newCollector namespace l).

Implicit Types s : State St (gpuCollector Logger).

(** C1, as amended.  For a device whose handle, utilization, temperature
    and memory reads all succeed (the library answered the five calls of the
    round of index [i] as in [allReads]) and whose label name (the name
    read, or "unknown" when its read failed) is valid UTF-8, the samples
    [Update] sends with the index of the device are exactly the six of
    [deviceSamples]: utilization, temperature, memory total, used and free,
    and the info sample of value 1, all gauges, all labelled with the
    decimal index and with the name of the device.  In particular, when the
    library reports two devices, answers all the reads of both, and both
    names are valid UTF-8, [Update] sends twelve samples, six with the
    index "0" and then six with the index "1", and returns nil. *)
Theorem Update_six_samples_per_device g s :
  nth_error (heap s) g = Some col ->
  (forall before i device name nameRet util temp mem after,
      utf8.ValidString (nameLabel name nameRet) = true ->
      calls (events (Update lib g s))
      = before ++ allReads i device name nameRet util temp mem ++ after ->
      samplesFor i (events (Update lib g s))
      = deviceSamples col (strconv.Itoa i) (nameLabel name nameRet)
                      util temp mem
      /\ List.length (samplesFor i (events (Update lib g s))) = 6%nat
      /\ map prometheus.value (samplesFor i (events (Update lib g s)))
         = [float64_of_int (nvml.Gpu util); float64_of_int temp;
            float64_of_int (nvml.Total mem); float64_of_int (nvml.Used mem);
            float64_of_int (nvml.Free mem); float64_one]
      /\ Forall (fun m => prometheus.valType m = prometheus.GaugeValue
                          /\ label "gpu_index" m = Some (strconv.Itoa i)
                          /\ label "gpu_name" m = Some (nameLabel name nameRet))
                (samplesFor i (events (Update lib g s))))
  /\ (forall d0 n0 r0 u0 t0 m0 d1 n1 r1 u1 t1 m1,
        utf8.ValidString (nameLabel n0 r0) = true ->
        utf8.ValidString (nameLabel n1 r1) = true ->
        calls (events (Update lib g s))
        = nvml.CallDeviceGetCount 2 nvml.SUCCESS
          :: allReads 0 d0 n0 r0 u0 t0 m0 ++ allReads 1 d1 n1 r1 u1 t1 m1 ->
        samples (events (Update lib g s))
        = deviceSamples col "0" (nameLabel n0 r0) u0 t0 m0
          ++ deviceSamples col "1" (nameLabel n1 r1) u1 t1 m1
        /\ List.length (samples (events (Update lib g s))) = 12%nat
        /\ result (Update lib g s) = Some None).
Proof.
  intros Hg. split.
  - intros before i device name nameRet util temp mem after V E.
    rewrite (Update_allReads lib namespace l g s _ _ _ _ _ _ _ _ _ Hg V E).
    repeat split. repeat constructor.
  - intros d0 n0 r0 u0 t0 m0 d1 n1 r1 u1 t1 m1 V0 V1 E.
    destruct (Update_rounds lib namespace l g s 2
                [Collected d0 n0 r0 u0 t0 m0; Collected d1 n1 r1 u1 t1 m1]
                Hg eq_refl ltac:(discriminate)) as [Ee Er].
    + rewrite E. reflexivity.
    + rewrite Ee, Er.
      change (samples (ECall ?c :: ?t)) with (samples t).
      rewrite samples_rounds_events. simpl. rewrite V0, V1. simpl.
      repeat split.
Qed.

(** C5. For a device whose name read fails while its handle, utilization,
    temperature and memory reads succeed, [Update] still sends the six
    samples of the device, and each carries "unknown" as the value of the
    label gpu_name. *)
Theorem Update_unknown_name g s before i device name nameRet util temp mem after :
  nth_error (heap s) g = Some col ->
  nvml.failed nameRet = true ->
  calls (events (Update lib g s))
  = before ++ allReads i device name nameRet util temp mem ++ after ->
  samplesFor i (events (Update lib g s))
  = deviceSamples col (strconv.Itoa i) "unknown" util temp mem
  /\ List.length (samplesFor i (events (Update lib g s))) = 6%nat
  /\ Forall (fun m => label "gpu_name" m = Some "unknown")
            (samplesFor i (events (Update lib g s))).
Proof.
  intros Hg F E.
  assert (V : utf8.ValidString (nameLabel name nameRet) = true).
  { unfold nameLabel. now rewrite F. }
  rewrite (Update_allReads lib namespace l g s _ _ _ _ _ _ _ _ _ Hg V E).
  unfold nameLabel. rewrite F. repeat split. repeat constructor.
Qed.

(** C4. For a device whose handle is obtained and whose utilization,
    temperature or memory read then fails, [Update] sends no sample with
    the index of the device, and goes on: the next call of the library
    asks for the handle of the next index when there is one, and the loop
    ends otherwise. *)
Theorem Update_read_failure_skips_device g s count ret before i
        (o : @Round Device) after :
  nth_error (heap s) g = Some col ->
  round_wf o = true ->
  read_failed o = true ->
  calls (events (Update lib g s))
  = nvml.CallDeviceGetCount count ret :: before ++ round_calls i o ++ after ->
  samplesFor i (events (Update lib g s)) = []
  /\ (i + 1 < count ->
      exists d r after',
        after = nvml.CallDeviceGetHandleByIndex (i + 1) d r :: after')
  /\ (count <= i + 1 -> after = []).
Proof.
  intros Hg W RF E.
  destruct (Update_segment lib namespace l g s
              (nvml.CallDeviceGetCount count ret :: before) i o after Hg W E)
    as (count' & os1 & os2 & -> & Hle & Hlast & Hi & Hb & Ha).
  injection Hb as <- _ _.
  assert (P : round_panics o = false) by now destruct o.
  rewrite length_app in Hle. simpl in Hle.
  repeat split.
  - unfold samplesFor.
    change (samples (ECall ?c :: ?t)) with (samples t).
    rewrite samples_rounds_events.
    rewrite (filter_rounds namespace l i 0 os1 o os2) by lia.
    now destruct o.
  - intros Hlt. destruct os2 as [|o2 os2].
    + specialize (Hlast eq_refl P). rewrite length_app in Hlast.
      simpl in Hlast. lia.
    + subst after. simpl.
      destruct (round_calls_shape (Device:=Device) (i + 1) o2)
        as (d & r & tl & -> & _).
      now exists d, r, (tl ++ rounds_calls (i + 1 + 1) os2).
  - intros Hge. destruct os2 as [|o2 os2]; [assumption|simpl in Hle; lia].
Qed.

(** C2. When the device-count query fails, or reports no device, [Update]
    returns an error and sends no sample; it asks for no handle. *)
Theorem Update_count_failure g s count ret :
  nth_error (heap s) g = Some col ->
  fst (nvml.DeviceGetCount lib (nvmlState s)) = (count, ret) ->
  nvml.failed ret = true \/ count = 0 ->
  result (Update lib g s)
  = Some (Some (if nvml.failed ret
                then fmt_Errorf "could not retrieve GPU count: %v" ret
                else errors_New "no NVIDIA GPUs found"))
  /\ samples (events (Update lib g s)) = []
  /\ calls (events (Update lib g s)) = [nvml.CallDeviceGetCount count ret].
Proof.
  intros Hg Hc H. rewrite (Update_run lib namespace l g s Hg).
  destruct (nvml.DeviceGetCount lib (nvmlState s)) as [[count' r] n1].
  simpl in Hc. injection Hc as -> ->.
  destruct (nvml.failed ret) eqn:F.
  - now repeat split.
  - destruct H as [H|H]; [discriminate H|]. subst count. now repeat split.
Qed.

(** C3, as amended.  When the library reports [N >= 1] devices, refuses
    the handle of the device [k] and answers all the reads of every other
    device, and the label name of every other device is valid UTF-8,
    [Update] sends the six samples of each other device, [(N-1)*6] samples
    in all, sends no sample with the index [k], and returns nil. *)
Theorem Update_one_handle_failure g s N k ret
        (device : Z -> Device) (name : Z -> string) (nameRet : Z -> nvml.Return)
        (util : Z -> nvml.Utilization) (temp : Z -> Z) (mem : Z -> nvml.Memory) :
  nth_error (heap s) g = Some col ->
  0 <= k < N ->
  nvml.failed ret = true ->
  (forall j, 0 <= j < N -> j <> k ->
             utf8.ValidString (nameLabel (name j) (nameRet j)) = true) ->
  calls (events (Update lib g s))
  = nvml.CallDeviceGetCount N nvml.SUCCESS
    :: flat_map (fun j =>
                   if j =? k
                   then [nvml.CallDeviceGetHandleByIndex k (device k) ret]
                   else allReads j (device j) (name j) (nameRet j)
                                 (util j) (temp j) (mem j))
                (indices N) ->
  result (Update lib g s) = Some None
  /\ List.length (samples (events (Update lib g s))) = Z.to_nat ((N - 1) * 6)
  /\ samplesFor k (events (Update lib g s)) = []
  /\ samples (events (Update lib g s))
     = flat_map (fun j =>
                   if j =? k then []
                   else deviceSamples col (strconv.Itoa j)
                          (nameLabel (name j) (nameRet j))
                          (util j) (temp j) (mem j))
                (indices N).
Proof.
  intros Hg Hk F V E.
  set (R := fun j => if j =? k then NoHandle (device k) ret
                     else Collected (device j) (name j) (nameRet j)
                                    (util j) (temp j) (mem j)).
  assert (WR : forall j, round_wf (R j) = true).
  { intros j. unfold R. now destruct (j =? k). }
  assert (PR : forall j, In j (indices N) -> round_panics (R j) = false).
  { intros j Hj. apply in_indices in Hj. unfold R.
    destruct (Z.eqb_spec j k) as [->|Hjk]; [reflexivity|].
    simpl. now rewrite V. }
  assert (Ec : rounds_calls 0 (map R (indices N))
               = flat_map (fun j =>
                   if j =? k
                   then [nvml.CallDeviceGetHandleByIndex k (device k) ret]
                   else allReads j (device j) (name j) (nameRet j)
                                 (util j) (temp j) (mem j))
                (indices N)).
  { unfold indices. rewrite (rounds_calls_map R (Z.to_nat N) 0 : rounds_calls 0 _ = _).
    apply flat_map_ext. intros j. unfold R.
    destruct (Z.eqb_spec j k) as [->|]; reflexivity. }
  rewrite <- Ec in E.
  destruct (Update_rounds lib namespace l g s N (map R (indices N)) Hg
              (forallb_map_wf R _ WR)) as [Ee Er]; [| exact E |].
  { unfold indices. destruct (Z.to_nat N) eqn:EN; [lia | discriminate]. }
  rewrite (existsb_map_false _ _ _ PR) in Er.
  assert (Es : samples (events (Update lib g s))
               = flat_map (fun j =>
                   if j =? k then []
                   else deviceSamples col (strconv.Itoa j)
                          (nameLabel (name j) (nameRet j))
                          (util j) (temp j) (mem j))
                (indices N)).
  { rewrite Ee. change (samples (ECall ?c :: ?t)) with (samples t).
    rewrite samples_rounds_events. unfold indices.
    rewrite (rounds_samples_map col R (Z.to_nat N) 0 : rounds_samples col 0 _ = _).
    apply flat_map_ext_in. intros j Hj.
    pose proof (PR j Hj) as Pj. apply in_indices in Hj. unfold R in *.
    destruct (Z.eqb_spec j k) as [->|Hjk]; [reflexivity|].
    simpl in *. now rewrite Pj. }
  unfold samplesFor. rewrite Es. repeat split; [exact Er | |].
  - unfold indices. rewrite length_flat_map_but_one with (k := k).
    + destruct (Z.leb_spec (Z.of_nat 0) k); [|lia].
      destruct (Z.ltb_spec k (Z.of_nat 0 + Z.of_nat (Z.to_nat N))); simpl; lia.
    + intros j Hj. now destruct (Z.eqb_spec j k).
    + now rewrite Z.eqb_refl.
  - rewrite filter_flat_map. apply flat_map_nil. intros j.
    destruct (Z.eqb_spec j k) as [->|Hj]; [reflexivity|].
    rewrite filter_deviceSamples. now destruct (Z.eqb_spec j k).
Qed.

(** C6. With a namespace that is not empty, the six descriptors built by
    [NewGPUCollector] are named <namespace>_gpu_utilisation_percentage,
    <namespace>_gpu_temperature_celsius, <namespace>_gpu_memory_total_bytes,
    <namespace>_gpu_memory_used_bytes, <namespace>_gpu_memory_free_bytes and
    <namespace>_gpu_info; every sample [Update] sends has one of these six
    descriptors and carries exactly the label keys gpu_index and
    gpu_name. *)
Theorem metric_names_and_label_keys :
  namespace <> "" ->
  map prometheus.fqName (descriptors col)
  = [ (namespace ++ "_gpu_utilisation_percentage")%string;
      (namespace ++ "_gpu_temperature_celsius")%string;
      (namespace ++ "_gpu_memory_total_bytes")%string;
      (namespace ++ "_gpu_memory_used_bytes")%string;
      (namespace ++ "_gpu_memory_free_bytes")%string;
      (namespace ++ "_gpu_info")%string ]
  /\ forall g s,
      nth_error (heap s) g = Some col ->
      Forall (fun m =>
                In (prometheus.desc m) (descriptors col)
                /\ map fst (prometheus.labelPairs m) = ["gpu_index"; "gpu_name"])
             (samples (events (Update lib g s))).
Proof.
  intros Hns. split.
  - unfold descriptors, newCollector, prometheus.NewDesc,
      prometheus.BuildFQName. simpl.
    apply String.eqb_neq in Hns. rewrite Hns. reflexivity.
  - intros g s Hg. rewrite (Update_run lib namespace l g s Hg).
    destruct (nvml.DeviceGetCount lib (nvmlState s)) as [[count r] n1].
    destruct (nvml.failed r); [constructor|].
    destruct (count =? 0); [constructor|].
    rewrite events_ends. change (samples (ECall ?c :: ?t)) with (samples t).
    rewrite samples_rounds_events.
    apply Forall_rounds_samples. intros gpuIndex name u t m.
    unfold deviceSamples, descriptors.
    repeat (apply Forall_cons; [split; [simpl; tauto | reflexivity] |]).
    apply Forall_nil.
Qed.

(** C7. [NewGPUCollector] calls the library once, to initialise it, and
    sends and logs nothing.  When the initialisation fails it returns an
    error and no collector, and allocates nothing.  When it succeeds it
    returns, with no error, a new collector that holds the logger and six
    descriptors: for utilization, temperature, memory total, used and free,
    and info, each with its name built from the namespace and the subsystem
    gpu, its help text, the variable labels gpu_index and gpu_name and no
    constant label.  It asks neither for the device count nor for a handle;
    [Update] begins by asking for the device count. *)
Theorem NewGPUCollector_spec s :
  let r := fst (nvml.Init lib (nvmlState s)) in
  let n := snd (nvml.Init lib (nvmlState s)) in
  events (NewGPUCollector lib namespace l s) = [ECall (nvml.CallInit r)]
  /\ (nvml.failed r = true ->
      NewGPUCollector lib namespace l s
      = Returns (None, Some (fmt_Errorf "could not initialise NVML: %v" r))
                (mkState n (heap s)) [ECall (nvml.CallInit r)])
  /\ (nvml.failed r = false ->
      exists g s' c,
        NewGPUCollector lib namespace l s
        = Returns (Some g, None) s' [ECall (nvml.CallInit r)]
        /\ nvmlState s' = n
        /\ heap s' = heap s ++ [c]
        /\ nth_error (heap s) g = None
        /\ nth_error (heap s') g = Some c
        /\ c = col
        /\ logger c = l
        /\ gpuUtilizationDesc c
           = prometheus.mkDesc
               (prometheus.BuildFQName namespace "gpu" "utilisation_percentage")
               "GPU utilisation in percent." ["gpu_index"; "gpu_name"] []
        /\ gpuTemperatureDesc c
           = prometheus.mkDesc
               (prometheus.BuildFQName namespace "gpu" "temperature_celsius")
               "GPU temperature in Celsius." ["gpu_index"; "gpu_name"] []
        /\ gpuMemoryTotalDesc c
           = prometheus.mkDesc
               (prometheus.BuildFQName namespace "gpu" "memory_total_bytes")
               "Total GPU memory in bytes." ["gpu_index"; "gpu_name"] []
        /\ gpuMemoryUsedDesc c
           = prometheus.mkDesc
               (prometheus.BuildFQName namespace "gpu" "memory_used_bytes")
               "Used GPU memory in bytes." ["gpu_index"; "gpu_name"] []
        /\ gpuMemoryFreeDesc c
           = prometheus.mkDesc
               (prometheus.BuildFQName namespace "gpu" "memory_free_bytes")
               "Free GPU memory in bytes." ["gpu_index"; "gpu_name"] []
        /\ gpuInfoDesc c
           = prometheus.mkDesc
               (prometheus.BuildFQName namespace "gpu" "info")
               "Static GPU information (e.g. index and name)."
               ["gpu_index"; "gpu_name"] [])
  /\ (forall g' s',
        exists count ret rest,
          calls (events (Update lib g' s'))
          = nvml.CallDeviceGetCount count ret :: rest).
Proof.
  unfold NewGPUCollector, nvml_Init, bind, call, new, ret.
  destruct (nvml.Init lib (nvmlState s)) as [r n]. simpl.
  repeat split.
  - now destruct (nvml.failed r).
  - now intros ->.
  - intros ->. do 3 eexists. repeat split; simpl.
    + apply nth_error_None. lia.
    + rewrite nth_error_app2, Nat.sub_diag by lia. reflexivity.
  - intros g' s'. unfold Update, nvml_DeviceGetCount, bind at 1, call.
    destruct (nvml.DeviceGetCount lib (nvmlState s')) as [[count ret] n1].
    match goal with |- context [match ?X with Returns _ _ _ => _ | Panics _ _ => _ end] =>
      destruct X end; simpl; now do 3 eexists.
Qed.

(** C8. [Update] changes no object of the heap, whether it returns or
    panics: the collector its receiver points to has the same logger and
    the same six descriptors afterwards, and nothing is allocated.  What
    [Update] does is query the library (it does not initialise it again),
    send samples and log. *)
Theorem Update_frame g s :
  nth_error (heap s) g = Some col ->
  heap (last_state (Update lib g s)) = heap s
  /\ nth_error (heap (last_state (Update lib g s))) g = Some col
  /\ (forall s', final (Update lib g s) = Some s' -> heap s' = heap s)
  /\ forallb is_query (calls (events (Update lib g s))) = true.
Proof.
  intros Hg. rewrite (Update_run lib namespace l g s Hg).
  destruct (nvml.DeviceGetCount lib (nvmlState s)) as [[count r] n1].
  destruct (nvml.failed r); [| destruct (count =? 0)].
  - simpl. repeat split; try assumption. now intros s' [= <-].
  - simpl. repeat split; try assumption. now intros s' [= <-].
  - rewrite last_state_ends, events_ends. simpl.
    repeat split; try assumption.
    + unfold ends. destruct (existsb _ _); simpl; [discriminate|].
      now intros s' [= <-].
    + rewrite calls_rounds_events. apply rounds_calls_queries.
Qed.


End Contract.

(** ** Determinism *)

Section Determinism.

Context {St1 St2 Device Logger : Type}.
Variable lib1 : nvml.Library St1 Device.
Variable lib2 : nvml.Library St2 Device.
Variable namespace : string.
Variable l : Logger.

Abbreviation col := (newCollector namespace l).

(** C10. Two calls of [Update] to which the library gives the same
    sequence of answers (count, handles, names, utilization, temperature,
    memory) send the same samples in the same order and return the same
    result; they even log the same.  The two calls may start in different
    states of the library, and even be linked with different libraries. *)
Theorem Update_deterministic g1 (s1 : State St1 (gpuCollector Logger))
        g2 (s2 : State St2 (gpuCollector Logger)) :
  nth_error (heap s1) g1 = Some col ->
  nth_error (heap s2) g2 = Some col ->
  calls (events (Update lib1 g1 s1)) = calls (events (Update lib2 g2 s2)) ->
  samples (events (Update lib1 g1 s1)) = samples (events (Update lib2 g2 s2))
  /\ result (Update lib1 g1 s1) = result (Update lib2 g2 s2)
  /\ events (Update lib1 g1 s1) = events (Update lib2 g2 s2).
Proof.
  intros Hg1 Hg2 E.
  rewrite (Update_run lib1 namespace l g1 s1 Hg1) in *.
  rewrite (Update_run lib2 namespace l g2 s2 Hg2) in *.
  destruct (nvml.DeviceGetCount lib1 (nvmlState s1)) as [[c1 r1] n1].
  destruct (nvml.DeviceGetCount lib2 (nvmlState s2)) as [[c2 r2] n2].
  assert (Hc : c1 = c2 /\ r1 = r2).
  { destruct (nvml.failed r1), (nvml.failed r2), (c1 =? 0), (c2 =? 0);
      rewrite ?events_ends in E; simpl in E; injection E; auto. }
  destruct Hc as [<- <-].
  destruct (nvml.failed r1); [now repeat split|].
  destruct (c1 =? 0); [now repeat split|].
  rewrite !events_ends, !result_ends in *.
  simpl in E. injection E as E. rewrite !calls_rounds_events in E.
  apply rounds_calls_inj in E;
    [| apply rounds_of_wf | apply rounds_of_wf].
  rewrite E. now repeat split.
Qed.

End Determinism.

(** * Further properties of the collector *)

(** ** Rounds: logs, counts, and the discipline of handles *)

Section RoundObservations.

Context {Device Logger : Type}.
Variable c : gpuCollector Logger.

Implicit Types o : @Round Device.
Implicit Types os : list (@Round Device).

Lemma logs_app (t1 t2 : list (Event Device Logger)) :
  logs (t1 ++ t2) = logs t1 ++ logs t2.
Proof. apply flat_map_app. Qed.

(** A round logs one record for each of its failed calls. *)
Lemma logs_round i0 i o cs :
  round_wf o = true ->
  map (pair (logger c)) (failure_records i0 (round_calls i o ++ cs))
  = logs (round_events c i o) ++ map (pair (logger c)) (failure_records i cs).
Proof.
  intros W.
  destruct o; simpl in W; simpl; unfold call_failed, nameWarn; simpl;
    rewrite ?W; try destruct (nvml.failed nameRet);
    try destruct (negb (utf8.ValidString _)); reflexivity.
Qed.

Lemma logs_rounds os : forall i0 j,
  forallb round_wf os = true ->
  map (pair (logger c)) (failure_records i0 (rounds_calls j os))
  = logs (rounds_events c j os).
Proof.
  induction os as [|o os IH]; intros i0 j W; simpl; [reflexivity|].
  simpl in W. apply andb_true_iff in W as [Wo W].
  now rewrite logs_round, logs_app, IH.
Qed.

(** A round that does not panic sends six samples when it has read the
    memory, none otherwise; a round that panics has read the memory and
    sends none. *)
Lemma samples_round_memory i o :
  round_wf o = true -> round_panics o = false ->
  List.length (round_samples c i o)
  = (6 * List.length (filter memory_read (round_calls i o)))%nat.
Proof.
  intros W P. destruct o; simpl in W, P; simpl; rewrite ?W, ?P; reflexivity.
Qed.

Lemma samples_round_panics i o :
  round_panics o = true ->
  round_samples c i o = []
  /\ List.length (filter memory_read (round_calls i o)) = 1%nat.
Proof.
  intros P. destruct o; try discriminate P. simpl in *. now rewrite P.
Qed.

Lemma samples_rounds_memory os : forall j,
  forallb round_wf os = true ->
  existsb round_panics os = false ->
  List.length (rounds_samples c j os)
  = (6 * List.length (filter memory_read (rounds_calls j os)))%nat.
Proof.
  induction os as [|o os IH]; intros j W P; simpl; [reflexivity|].
  simpl in W, P. apply andb_true_iff in W as [Wo W].
  apply orb_false_iff in P as [Po P].
  rewrite length_app, filter_app, length_app, samples_round_memory, IH
    by assumption.
  lia.
Qed.

(** A round keeps the discipline of handles. *)
Lemma follows_round i o cs :
  round_wf o = true -> follows Idle cs -> follows Idle (round_calls i o ++ cs).
Proof.
  intros W H. destruct o; simpl in W; simpl; rewrite ?W; auto.
Qed.

Lemma follows_rounds os : forall j,
  forallb round_wf os = true -> follows Idle (rounds_calls j os).
Proof.
  induction os as [|o os IH]; intros j W; simpl; [exact I|].
  simpl in W. apply andb_true_iff in W as [Wo W].
  apply follows_round; [assumption | now apply IH].
Qed.

(** A round makes at most five calls, none of them a count query. *)
Lemma length_round_calls i o : (List.length (round_calls i o) <= 5)%nat.
Proof. destruct o; simpl; lia. Qed.

Lemma length_rounds_calls os : forall j,
  (List.length (rounds_calls j os) <= 5 * List.length os)%nat.
Proof.
  induction os as [|o os IH]; intros j; simpl; [lia|].
  rewrite length_app. pose proof (length_round_calls j o).
  specialize (IH (j + 1)). lia.
Qed.

Lemma rounds_calls_no_count os : forall j,
  filter is_count (rounds_calls j os) = [].
Proof.
  induction os as [|o os IH]; intros j; simpl; [reflexivity|].
  rewrite filter_app, IH, app_nil_r. now destruct o.
Qed.

End RoundObservations.

(** ** The names of the metrics *)

Lemma append_inj_l (p a b : string) :
  (p ++ a)%string = (p ++ b)%string -> a = b.
Proof.
  induction p as [|ch p IH]; simpl; intros E; [assumption|].
  injection E as E. now apply IH.
Qed.

(** The six names differ, whatever the namespace. *)
Lemma fqNames_NoDup {Logger : Type} (namespace : string) (l : Logger) :
  NoDup (map prometheus.fqName (descriptors (newCollector namespace l))).
Proof.
  unfold descriptors, newCollector, prometheus.NewDesc,
    prometheus.BuildFQName. simpl.
  destruct (String.eqb namespace ""); simpl.
  - repeat (constructor; [simpl; intuition discriminate|]). constructor.
  - repeat (constructor;
            [simpl; intros H;
             repeat (destruct H as [H|H];
                     [apply append_inj_l in H; discriminate H|]);
             exact H|]).
    constructor.
Qed.

(** ** Samples of devices read in ascending order *)

Section ReadingFacts.

Context {Device Logger : Type}.
Variable namespace : string.
Variable l : Logger.

Abbreviation col := (newCollector namespace l).

(** The samples of a reading carry the decimal of its index as first label
    value. *)
Lemma identity_readings (rds : list Reading) a :
  In a (map identity (flat_map (readingSamples col) rds)) ->
  exists j, In j (map r_index rds) /\ hd_error (snd a) = Some (strconv.Itoa j).
Proof.
  induction rds as [|rd rds IH]; [intros []|].
  cbn [flat_map]. rewrite map_app, in_app_iff. intros [H|H].
  - exists (r_index rd). split; [now left|].
    unfold readingSamples, deviceSamples in H. simpl in H.
    repeat (destruct H as [H|H]; [now subst a|]). destruct H.
  - destruct (IH H) as (j & Hj & E). exists j. split; [now right | exact E].
Qed.

(** No two samples of devices read in strictly ascending order of index
    have the same name and label values. *)
Lemma NoDup_identity_readings (rds : list Reading) :
  StronglySorted Z.lt (map r_index rds) ->
  NoDup (map identity (flat_map (readingSamples col) rds)).
Proof.
  induction rds as [|rd rds IH]; intros Hs; [constructor|].
  simpl in Hs. apply StronglySorted_inv in Hs as [Hs Hlt].
  cbn [flat_map]. rewrite map_app. apply NoDup_app.
  - apply NoDup_map_inv with (f := fst).
    rewrite map_map. exact (fqNames_NoDup namespace l).
  - now apply IH.
  - intros a Ha Hb.
    destruct (identity_readings rds a Hb) as (j & Hj & Ej).
    destruct (identity_readings [rd] a) as (k & Hk & Ek).
    { cbn [flat_map]. now rewrite app_nil_r. }
    simpl in Hk. destruct Hk as [<-|[]].
    rewrite Ek in Ej. injection Ej as Ej. apply Itoa_inj in Ej.
    rewrite Forall_forall in Hlt. specialize (Hlt j Hj). lia.
Qed.

(** For each index, the rounds send six samples or none. *)
Lemma filter_rounds_all_or_nothing i (os : list (@Round Device)) : forall j,
  filter (has_index i) (rounds_samples col j os) = []
  \/ List.length (filter (has_index i) (rounds_samples col j os)) = 6%nat.
Proof.
  induction os as [|o os IH]; intros j; simpl; [now left|].
  rewrite filter_app, filter_round.
  destruct (Z.eqb_spec j i) as [->|Hj].
  - rewrite (filter_rounds_other namespace l i os (i + 1)) by lia.
    rewrite app_nil_r. destruct o; simpl; auto.
    destruct (negb (utf8.ValidString (nameLabel name nameRet))); auto.
  - apply IH.
Qed.

End ReadingFacts.

(** ** Properties of [Update] and [NewGPUCollector] *)

Section Further.

Context {St Device Logger : Type}.
Variable lib : nvml.Library St Device.
Variable namespace : string.
Variable l : Logger.

Abbreviation col := (newCollector namespace l).

Implicit Types s : State St (gpuCollector Logger).

(** X1. [Update] panics exactly when it has read a device (handle,
    utilization, temperature and memory answered with success) whose name,
    read with success, is not valid UTF-8.  When it does not panic its
    result depends on the count query alone: an error when the query fails
    or reports no device, nil otherwise, whatever fails for the devices. *)
Theorem Update_result g s :
  nth_error (heap s) g = Some col ->
  result (Update lib g s)
  = if existsb (fun rd => negb (labelled rd))
               (readings (calls (events (Update lib g s))))
    then None
    else Some (let '(count, ret) := fst (nvml.DeviceGetCount lib (nvmlState s)) in
               if nvml.failed ret
               then Some (fmt_Errorf "could not retrieve GPU count: %v" ret)
               else if count =? 0
                    then Some (errors_New "no NVIDIA GPUs found")
                    else None).
Proof.
  intros Hg. rewrite (Update_run lib namespace l g s Hg).
  destruct (nvml.DeviceGetCount lib (nvmlState s)) as [[count r] n1]. simpl.
  destruct (nvml.failed r); [reflexivity|].
  destruct (count =? 0); [reflexivity|].
  rewrite events_ends, result_ends.
  change (calls (ECall ?x :: ?t)) with (x :: calls t).
  rewrite calls_rounds_events.
  change (readings (nvml.CallDeviceGetCount count r :: ?cs))
    with (readings_from 0 "" (nvml.mkUtilization 0 0) 0 cs).
  rewrite (readings_rounds _ 0 _ _ _ _ (rounds_of_wf lib _ _ _)).
  now rewrite <- rounds_panic_readings.
Qed.

(** X2. [Update] logs one record for each library call that failed, in the
    order of the calls, and nothing else: the failed count query at the
    level Error with the return code, every failed device call as a warning
    with the index of the device and the return code.  All the records go to
    the logger of the collector.  A count of zero is not logged. *)
Theorem Update_logs_failed_calls g s :
  nth_error (heap s) g = Some col ->
  logs (events (Update lib g s))
  = map (pair l) (failure_records 0 (calls (events (Update lib g s)))).
Proof.
  intros Hg. rewrite (Update_run lib namespace l g s Hg).
  destruct (nvml.DeviceGetCount lib (nvmlState s)) as [[count r] n1].
  destruct (nvml.failed r) eqn:F; [| destruct (count =? 0)];
    rewrite ?events_ends;
    simpl; unfold call_failed; simpl; rewrite F; try reflexivity.
  simpl. rewrite calls_rounds_events.
  change l with (logger col) at 2.
  rewrite logs_rounds by apply rounds_of_wf. reflexivity.
Qed.

(** X3. The number of samples [Update] sends is six times the number of
    devices it has read completely, that is of the memory reads that
    succeeded; but for the device at which it panics, if it does, which
    was read and gives no sample. *)
Theorem Update_samples_per_memory_read g s :
  nth_error (heap s) g = Some col ->
  List.length (samples (events (Update lib g s)))
  = (6 * (List.length (filter memory_read (calls (events (Update lib g s))))
          - match result (Update lib g s) with None => 1 | Some _ => 0 end))%nat.
Proof.
  intros Hg. rewrite (Update_run lib namespace l g s Hg).
  destruct (nvml.DeviceGetCount lib (nvmlState s)) as [[count r] n1].
  destruct (nvml.failed r); [reflexivity|].
  destruct (count =? 0); [reflexivity|].
  rewrite events_ends, result_ends.
  change (samples (ECall ?x :: ?t)) with (samples t).
  change (calls (ECall ?x :: ?t)) with (x :: calls t).
  rewrite samples_rounds_events, calls_rounds_events.
  change (filter memory_read (nvml.CallDeviceGetCount count r :: ?cs))
    with (filter memory_read cs).
  pose proof (rounds_of_wf lib (Z.to_nat count) 0 n1) as W.
  destruct (rounds_of_shape lib (Z.to_nat count) 0 n1)
    as [[P _]|(os1 & o & E & P1 & P & _)].
  - rewrite P, Nat.sub_0_r. now apply samples_rounds_memory.
  - rewrite E in *. rewrite forallb_app in W.
    apply andb_true_iff in W as [W1 _].
    rewrite existsb_app. simpl. rewrite P, orb_true_r.
    rewrite rounds_samples_app, rounds_calls_app, filter_app, !length_app.
    rewrite (samples_rounds_memory col os1 0 W1 P1).
    cbn [rounds_samples rounds_calls]. rewrite !app_nil_r.
    destruct (samples_round_panics col (0 + Z.of_nat (List.length os1)) o P)
      as [-> Hm].
    rewrite Hm. cbn [List.length]. lia.
Qed.

(** X4. The library is asked in a fixed discipline: first the device count,
    once; then, device by device, the handle, and on the handle just
    obtained, and only if it was obtained, name, utilization, temperature
    and memory in this order, stopping at the first of the last three that
    fails.  At most five calls are made per device. *)
Theorem Update_call_discipline g s :
  nth_error (heap s) g = Some col ->
  exists count ret cs,
    fst (nvml.DeviceGetCount lib (nvmlState s)) = (count, ret)
    /\ calls (events (Update lib g s)) = nvml.CallDeviceGetCount count ret :: cs
    /\ follows Idle cs
    /\ filter is_count cs = []
    /\ (List.length cs <= 5 * Z.to_nat count)%nat.
Proof.
  intros Hg. rewrite (Update_run lib namespace l g s Hg).
  destruct (nvml.DeviceGetCount lib (nvmlState s)) as [[count r] n1].
  exists count, r.
  destruct (nvml.failed r); [| destruct (count =? 0)].
  - exists []. simpl. repeat split; lia.
  - exists []. simpl. repeat split; lia.
  - exists (rounds_calls 0 (fst (rounds_of lib (Z.to_nat count) 0 n1))).
    rewrite events_ends.
    simpl. rewrite calls_rounds_events. repeat split.
    + apply follows_rounds, rounds_of_wf.
    + apply rounds_calls_no_count.
    + pose proof (length_rounds_calls
                    (fst (rounds_of lib (Z.to_nat count) 0 n1)) 0) as H.
      pose proof (rounds_of_length_le lib (Z.to_nat count) 0 n1). lia.
Qed.

(** X5. The six descriptors built by [NewGPUCollector] have six different
    names, whatever the namespace, even the empty one; each has the two
    variable labels gpu_index and gpu_name, in this order, and no constant
    label. *)
Theorem descriptors_distinct :
  NoDup (map prometheus.fqName (descriptors col))
  /\ Forall (fun d => prometheus.variableLabels d = ["gpu_index"; "gpu_name"]
                      /\ prometheus.constLabels d = [])
            (descriptors col).
Proof.
  split; [apply fqNames_NoDup|].
  repeat (constructor; [split; reflexivity|]). constructor.
Qed.

(** X6. No two samples sent by one call of [Update] have the same metric
    name and the same label values. *)
Theorem Update_samples_unique g s :
  nth_error (heap s) g = Some col ->
  NoDup (map identity (samples (events (Update lib g s)))).
Proof.
  intros Hg. rewrite (Update_run lib namespace l g s Hg).
  destruct (nvml.DeviceGetCount lib (nvmlState s)) as [[count r] n1].
  destruct (nvml.failed r); [constructor|].
  destruct (count =? 0); [constructor|].
  rewrite events_ends. change (samples (ECall ?x :: ?t)) with (samples t).
  rewrite samples_rounds_events.
  destruct (rounds_samples_readings col
              (fst (rounds_of lib (Z.to_nat count) 0 n1)) 0)
    as (rds & -> & Hs & _).
  now apply NoDup_identity_readings.
Qed.

(** X7. With a library whose names, when read with success, are valid
    UTF-8, a collector returned by a successful [NewGPUCollector] can be
    updated any number of times: no [Update] panics, and the heap stays
    what the construction left, the objects allocated before it and the
    new collector. *)
Theorem NewGPUCollector_then_Updates s :
  good_names lib ->
  nvml.failed (fst (nvml.Init lib (nvmlState s))) = false ->
  exists g s1 t,
    NewGPUCollector lib namespace l s = Returns (Some g, None) s1 t
    /\ forall n, exists sn,
        after_updates lib g n s1 = Some sn
        /\ heap sn = heap s ++ [col]
        /\ nth_error (heap sn) g = Some col.
Proof.
  intros G F. unfold NewGPUCollector, nvml_Init, bind, call, new, ret.
  destruct (nvml.Init lib (nvmlState s)) as [r n0]. simpl in F. rewrite F.
  simpl. do 3 eexists. split; [reflexivity|].
  assert (H0 : nth_error (heap s ++ [col]) (List.length (heap s)) = Some col).
  { rewrite nth_error_app2, Nat.sub_diag by lia. reflexivity. }
  assert (Hn : forall n (s1 : State St (gpuCollector Logger)),
             heap s1 = heap s ++ [col] ->
             exists sn, after_updates lib (List.length (heap s)) n s1 = Some sn
                        /\ heap sn = heap s ++ [col]).
  { induction n as [|n IH]; intros s1 H1; simpl.
    - now exists s1.
    - assert (Hg : nth_error (heap s1) (List.length (heap s)) = Some col)
        by now rewrite H1.
      rewrite (Update_run lib namespace l _ s1 Hg).
      destruct (nvml.DeviceGetCount lib (nvmlState s1)) as [[count r1] n1].
      destruct (nvml.failed r1); [| destruct (count =? 0)];
        rewrite ?(rounds_of_good lib G); simpl; apply IH; exact H1. }
  intros n. destruct (Hn n (mkState n0 (heap s ++ [col])) eq_refl)
    as (sn & E & H).
  exists sn. rewrite H. now repeat split.
Qed.

(** X8. A negative device count, reported with success, is not an error:
    [Update] returns nil after the count query alone, having asked for no
    handle, sent no sample and logged nothing. *)
Theorem Update_negative_count g s count ret :
  nth_error (heap s) g = Some col ->
  fst (nvml.DeviceGetCount lib (nvmlState s)) = (count, ret) ->
  nvml.failed ret = false ->
  count < 0 ->
  result (Update lib g s) = Some None
  /\ events (Update lib g s) = [ECall (nvml.CallDeviceGetCount count ret)].
Proof.
  intros Hg Hc F Hneg. rewrite (Update_run lib namespace l g s Hg).
  destruct (nvml.DeviceGetCount lib (nvmlState s)) as [[count' r] n1].
  simpl in Hc. injection Hc as -> ->. rewrite F.
  destruct (Z.eqb_spec count 0); [lia|].
  destruct count; try lia. split; reflexivity.
Qed.

(** X9. For every index, [Update] sends either no sample with that index or
    exactly six: a device is never reported in part. *)
Theorem Update_all_or_nothing g s i :
  nth_error (heap s) g = Some col ->
  samplesFor i (events (Update lib g s)) = []
  \/ List.length (samplesFor i (events (Update lib g s))) = 6%nat.
Proof.
  intros Hg. rewrite (Update_run lib namespace l g s Hg).
  destruct (nvml.DeviceGetCount lib (nvmlState s)) as [[count r] n1].
  destruct (nvml.failed r); [now left|].
  destruct (count =? 0); [now left|].
  rewrite events_ends. unfold samplesFor.
  change (samples (ECall ?x :: ?t)) with (samples t).
  rewrite samples_rounds_events.
  apply filter_rounds_all_or_nothing.
Qed.

End Further.

(** * The contract on a test library *)

Section Witnesses.

Abbreviation node := (newCollector "node" tt).

Lemma Update_six_samples_per_device_witness :
  samples (events (Update mock.libAB 0%nat mock.state0))
  = deviceSamples node "0" "A" (nvml.mkUtilization 50 0) 60
                  (nvml.mkMemory 100 60 40)
    ++ deviceSamples node "1" "B" (nvml.mkUtilization 10 0) 30
                     (nvml.mkMemory 200 200 0)
  /\ List.length (samples (events (Update mock.libAB 0%nat mock.state0))) = 12%nat
  /\ result (Update mock.libAB 0%nat mock.state0) = Some None.
Proof.
  exact (proj2 (Update_six_samples_per_device mock.libAB "node" tt
                  0%nat mock.state0 eq_refl)
               mock.devA "A" 0 (nvml.mkUtilization 50 0) 60
               (nvml.mkMemory 100 60 40)
               mock.devB "B" 0 (nvml.mkUtilization 10 0) 30
               (nvml.mkMemory 200 200 0) eq_refl eq_refl eq_refl).
Defined.

(** C1 as first stated fails on a device all of whose reads succeed and
    whose name is not valid UTF-8: [Update] panics at the first sample. *)
Lemma Update_six_samples_per_device_counterexample :
  calls (events (Update mock.libBadName 0%nat mock.state0))
  = nvml.CallDeviceGetCount 1 nvml.SUCCESS
    :: allReads 0 mock.devBadName (String "255"%char "") nvml.SUCCESS
                (nvml.mkUtilization 33 0) 44 (nvml.mkMemory 900 500 400)
  /\ samplesFor 0 (events (Update mock.libBadName 0%nat mock.state0)) = []
  /\ List.length (samplesFor 0 (events (Update mock.libBadName 0%nat mock.state0)))
     <> 6%nat
  /\ result (Update mock.libBadName 0%nat mock.state0) = None.
Proof. repeat split. discriminate. Qed.

(** The end-to-end test, spelled out: twelve samples, the label values
    of each, and the value 1 of the two info samples. *)
Example end_to_end_labels :
  map prometheus.labelValues (samples (events (Update mock.libAB 0%nat mock.state0)))
  = [ ["0"; "A"]; ["0"; "A"]; ["0"; "A"]; ["0"; "A"]; ["0"; "A"]; ["0"; "A"];
      ["1"; "B"]; ["1"; "B"]; ["1"; "B"]; ["1"; "B"]; ["1"; "B"]; ["1"; "B"] ].
Proof. reflexivity. Qed.

Example end_to_end_info :
  map prometheus.value
      (filter (fun m => String.eqb (prometheus.fqName (prometheus.desc m))
                                   "node_gpu_info")
              (samples (events (Update mock.libAB 0%nat mock.state0))))
  = [S754_finite false 4503599627370496 (-52);
     S754_finite false 4503599627370496 (-52)]
  /\ float64_one = S754_finite false 4503599627370496 (-52)
  /\ float64_of_int 1 = float64_one.
Proof. repeat split. Qed.

Lemma Update_count_failure_witness :
  result (Update mock.libNone 0%nat mock.state0)
  = Some (Some (errors_New "no NVIDIA GPUs found"))
  /\ samples (events (Update mock.libNone 0%nat mock.state0)) = []
  /\ calls (events (Update mock.libNone 0%nat mock.state0))
     = [nvml.CallDeviceGetCount 0 nvml.SUCCESS].
Proof.
  apply (Update_count_failure mock.libNone "node" tt 0%nat mock.state0
                              0 nvml.SUCCESS).
  - reflexivity.
  - reflexivity.
  - right. reflexivity.
Defined.

(** The same when the count query itself fails. *)
Example Update_count_query_fails :
  result (Update mock.libDown 0%nat mock.state0)
  = Some (Some (fmt_Errorf "could not retrieve GPU count: %v" 9))
  /\ samples (events (Update mock.libDown 0%nat mock.state0)) = [].
Proof. split; reflexivity. Qed.

Lemma Update_one_handle_failure_witness :
  result (Update mock.libThree 0%nat mock.state0) = Some None
  /\ List.length (samples (events (Update mock.libThree 0%nat mock.state0)))
     = 12%nat
  /\ samplesFor 1 (events (Update mock.libThree 0%nat mock.state0)) = [].
Proof.
  assert (V : forall j, 0 <= j < 3 -> j <> 1 ->
                utf8.ValidString
                  (nameLabel (fst (mock.name (mock.three j)))
                             (snd (mock.name (mock.three j)))) = true).
  { intros j Hj Hn. assert (E : j = 0 \/ j = 2) by lia.
    destruct E as [-> | ->]; reflexivity. }
  pose proof (Update_one_handle_failure mock.libThree "node" tt 0%nat
                mock.state0 3 1 6
                mock.three
                (fun j => fst (mock.name (mock.three j)))
                (fun j => snd (mock.name (mock.three j)))
                (fun j => fst (mock.util (mock.three j)))
                (fun j => fst (mock.temp (mock.three j)))
                (fun j => fst (mock.mem (mock.three j)))
                eq_refl ltac:(lia) eq_refl V eq_refl) as (H1 & H2 & H3 & _).
  repeat split; assumption.
Defined.

(** C3 as first stated fails when a device other than the refused one is
    read with success and has a name that is not valid UTF-8: with two
    devices, the handle of the first refused and the second fully read,
    [Update] panics and sends nothing, where six samples and nil were
    stated. *)
Lemma Update_one_handle_failure_counterexample :
  calls (events (Update mock.libRefusedBadName 0%nat mock.state0))
  = nvml.CallDeviceGetCount 2 nvml.SUCCESS
    :: flat_map (fun j =>
                   if j =? 0
                   then [nvml.CallDeviceGetHandleByIndex 0 (mock.refusedBad 0) 6]
                   else allReads j (mock.refusedBad j)
                                 (fst (mock.name (mock.refusedBad j)))
                                 (snd (mock.name (mock.refusedBad j)))
                                 (fst (mock.util (mock.refusedBad j)))
                                 (fst (mock.temp (mock.refusedBad j)))
                                 (fst (mock.mem (mock.refusedBad j))))
                (indices 2)
  /\ nvml.failed 6 = true
  /\ samples (events (Update mock.libRefusedBadName 0%nat mock.state0)) = []
  /\ List.length (samples (events (Update mock.libRefusedBadName 0%nat mock.state0)))
     <> Z.to_nat ((2 - 1) * 6)
  /\ result (Update mock.libRefusedBadName 0%nat mock.state0) = None.
Proof. repeat split. discriminate. Qed.

Lemma Update_read_failure_skips_device_witness :
  samplesFor 0 (events (Update mock.libNoTemp 0%nat mock.state0)) = []
  /\ (0 + 1 < 2 ->
      exists d r after',
        allReads 1 mock.devB "B" nvml.SUCCESS (nvml.mkUtilization 10 0) 30
                 (nvml.mkMemory 200 200 0)
        = nvml.CallDeviceGetHandleByIndex (0 + 1) d r :: after')
  /\ (2 <= 0 + 1 ->
      allReads 1 mock.devB "B" nvml.SUCCESS (nvml.mkUtilization 10 0) 30
               (nvml.mkMemory 200 200 0) = []).
Proof.
  exact (Update_read_failure_skips_device mock.libNoTemp "node" tt 0%nat
           mock.state0 2 nvml.SUCCESS [] 0
           (NoTemperature mock.devNoTemp "T" nvml.SUCCESS
                          (nvml.mkUtilization 90 0) 0 3)
           (allReads 1 mock.devB "B" nvml.SUCCESS
                     (nvml.mkUtilization 10 0) 30
                     (nvml.mkMemory 200 200 0))
           eq_refl eq_refl eq_refl eq_refl).
Defined.

Lemma Update_unknown_name_witness :
  samplesFor 0 (events (Update mock.libNoName 0%nat mock.state0))
  = deviceSamples node "0" "unknown" (nvml.mkUtilization 70 0) 80
                  (nvml.mkMemory 400 100 300)
  /\ List.length (samplesFor 0 (events (Update mock.libNoName 0%nat mock.state0)))
     = 6%nat
  /\ Forall (fun m => label "gpu_name" m = Some "unknown")
            (samplesFor 0 (events (Update mock.libNoName 0%nat mock.state0))).
Proof.
  exact (Update_unknown_name mock.libNoName "node" tt 0%nat mock.state0
           [nvml.CallDeviceGetCount 1 nvml.SUCCESS] 0 mock.devNoName "" 999
           (nvml.mkUtilization 70 0) 80 (nvml.mkMemory 400 100 300) []
           eq_refl eq_refl eq_refl).
Defined.

Lemma metric_names_and_label_keys_witness :
  map prometheus.fqName (descriptors node)
  = [ "node_gpu_utilisation_percentage"; "node_gpu_temperature_celsius";
      "node_gpu_memory_total_bytes"; "node_gpu_memory_used_bytes";
      "node_gpu_memory_free_bytes"; "node_gpu_info" ]
  /\ Forall (fun m =>
               In (prometheus.desc m) (descriptors node)
               /\ map fst (prometheus.labelPairs m) = ["gpu_index"; "gpu_name"])
            (samples (events (Update mock.libAB 0%nat mock.state0))).
Proof.
  assert (Hns : "node" <> "") by (apply String.eqb_neq; reflexivity).
  destruct (metric_names_and_label_keys mock.libAB "node" tt Hns) as [H1 H2].
  split; [exact H1 | exact (H2 0%nat mock.state0 eq_refl)].
Defined.

Lemma NewGPUCollector_spec_witness :
  events (NewGPUCollector mock.libAB "node" tt mock.fresh)
  = [ECall (nvml.CallInit nvml.SUCCESS)]
  /\ (exists g s' c,
        NewGPUCollector mock.libAB "node" tt mock.fresh
        = Returns (Some g, None) s' [ECall (nvml.CallInit nvml.SUCCESS)]
        /\ nth_error (heap s') g = Some c
        /\ map prometheus.fqName (descriptors c)
           = [ "node_gpu_utilisation_percentage"; "node_gpu_temperature_celsius";
               "node_gpu_memory_total_bytes"; "node_gpu_memory_used_bytes";
               "node_gpu_memory_free_bytes"; "node_gpu_info" ])
  /\ NewGPUCollector mock.libDown "node" tt mock.fresh
     = Returns (None, Some (fmt_Errorf "could not initialise NVML: %v" 9))
               (mkState 1%nat []) [ECall (nvml.CallInit 9)].
Proof.
  destruct (NewGPUCollector_spec mock.libAB "node" tt mock.fresh)
    as (H1 & _ & H3 & _).
  destruct (H3 eq_refl)
    as (g & s' & c & E & _ & _ & _ & Hn & _ & _ & D1 & D2 & D3 & D4 & D5 & D6).
  destruct (NewGPUCollector_spec mock.libDown "node" tt mock.fresh)
    as (_ & H2 & _).
  split; [exact H1|].
  split; [| exact (H2 eq_refl)].
  exists g, s', c. repeat split; try assumption.
  unfold descriptors. rewrite D1, D2, D3, D4, D5, D6. reflexivity.
Defined.

Lemma Update_frame_witness :
  heap (last_state (Update mock.libAB 1%nat mock.state1)) = heap mock.state1
  /\ nth_error (heap (last_state (Update mock.libAB 1%nat mock.state1))) 1
     = Some node
  /\ (forall s', final (Update mock.libAB 1%nat mock.state1) = Some s' ->
                 heap s' = heap mock.state1)
  /\ forallb is_query (calls (events (Update mock.libAB 1%nat mock.state1)))
     = true.
Proof.
  exact (Update_frame mock.libAB "node" tt 1%nat mock.state1 eq_refl).
Defined.

(** The heap is as it was after a panic too. *)
Example Update_frame_panic :
  result (Update mock.libBadName 0%nat mock.state0) = None
  /\ heap (last_state (Update mock.libBadName 0%nat mock.state0))
     = heap mock.state0.
Proof. split; reflexivity. Qed.


(** When a panic cuts the loop short, the handles asked for are an initial
    part of the indices. *)
Example Update_order_panic :
  handleIndices
    (calls (events (Update (mock.lib nvml.SUCCESS (2, nvml.SUCCESS)
                                     [mock.devBadName; mock.devB])
                           0%nat mock.state0)))
  = [0].
Proof. reflexivity. Qed.

Lemma Update_deterministic_witness :
  samples (events (Update mock.libAB 0%nat mock.state0))
  = samples (events (Update mock.libAB 1%nat mock.state1))
  /\ result (Update mock.libAB 0%nat mock.state0)
     = result (Update mock.libAB 1%nat mock.state1)
  /\ events (Update mock.libAB 0%nat mock.state0)
     = events (Update mock.libAB 1%nat mock.state1).
Proof.
  exact (Update_deterministic mock.libAB mock.libAB "node" tt
           0%nat mock.state0 1%nat mock.state1 eq_refl eq_refl eq_refl).
Defined.

End Witnesses.

(** * The further properties on a test library *)

Section FurtherWitnesses.

Lemma Update_result_witness :
  result (Update mock.libFaulty 0%nat mock.state0) = Some None
  /\ result (Update mock.libDown 0%nat mock.state0)
     = Some (Some (fmt_Errorf "could not retrieve GPU count: %v" 9))
  /\ result (Update mock.libBadName 0%nat mock.state0) = None.
Proof.
  split; [| split].
  - exact (Update_result mock.libFaulty "node" tt 0%nat mock.state0 eq_refl).
  - exact (Update_result mock.libDown "node" tt 0%nat mock.state0 eq_refl).
  - exact (Update_result mock.libBadName "node" tt 0%nat mock.state0 eq_refl).
Defined.

Lemma Update_logs_failed_calls_witness :
  logs (events (Update mock.libFaulty 0%nat mock.state0))
  = [ (tt, slog.mkRecord slog.LevelWarn "failed to get GPU name"
             [("gpu_index", slog.IntValue 0); ("return", slog.AnyValue 999)]);
      (tt, slog.mkRecord slog.LevelWarn "failed to get GPU memory info"
             [("gpu_index", slog.IntValue 0); ("return", slog.AnyValue 15)]);
      (tt, slog.mkRecord slog.LevelWarn "failed to get handle for GPU device"
             [("gpu_index", slog.IntValue 1); ("return", slog.AnyValue 6)]) ].
Proof.
  exact (eq_trans
           (Update_logs_failed_calls mock.libFaulty "node" tt 0%nat mock.state0
                                     eq_refl)
           eq_refl).
Defined.

Lemma Update_samples_per_memory_read_witness :
  List.length (samples (events (Update mock.libFaulty 0%nat mock.state0))) = 6%nat
  /\ List.length (samples (events (Update mock.libBadName 0%nat mock.state0)))
     = 0%nat.
Proof.
  split.
  - exact (eq_trans
             (Update_samples_per_memory_read mock.libFaulty "node" tt 0%nat
                                             mock.state0 eq_refl)
             eq_refl).
  - exact (eq_trans
             (Update_samples_per_memory_read mock.libBadName "node" tt 0%nat
                                             mock.state0 eq_refl)
             eq_refl).
Defined.

Lemma Update_call_discipline_witness :
  exists count ret cs,
    fst (nvml.DeviceGetCount mock.libFaulty (nvmlState mock.state0)) = (count, ret)
    /\ calls (events (Update mock.libFaulty 0%nat mock.state0))
       = nvml.CallDeviceGetCount count ret :: cs
    /\ follows Idle cs
    /\ filter is_count cs = []
    /\ (List.length cs <= 5 * Z.to_nat count)%nat.
Proof.
  exact (Update_call_discipline mock.libFaulty "node" tt 0%nat mock.state0 eq_refl).
Defined.

(** The discipline is a real constraint: a read without a handle, and a
    read on a refused handle, are against it. *)
Example follows_rejects :
  ~ follows Idle [nvml.CallGetName mock.devA "A" nvml.SUCCESS]
  /\ ~ follows Idle [nvml.CallDeviceGetHandleByIndex 0 mock.devNoHandle 6;
                     nvml.CallGetName mock.devNoHandle "C" nvml.SUCCESS]
  /\ ~ follows Idle [nvml.CallDeviceGetHandleByIndex 0 mock.devA nvml.SUCCESS;
                     nvml.CallGetName mock.devB "B" nvml.SUCCESS].
Proof.
  repeat split; simpl; intros H; try exact H.
  destruct H as [H _]. discriminate H.
Qed.

Lemma Update_samples_unique_witness :
  NoDup (map identity (samples (events (Update mock.libAB 0%nat mock.state0)))).
Proof.
  exact (Update_samples_unique mock.libAB "node" tt 0%nat mock.state0 eq_refl).
Defined.

(** The names of [tableAB] are valid UTF-8. *)
Lemma tableAB_good_names : good_names mock.tableAB.
Proof.
  intros d n. simpl.
  destruct (Z.to_nat d) as [|[|[|k]]]; simpl; intros H;
    reflexivity || discriminate H.
Defined.

Lemma NewGPUCollector_then_Updates_witness :
  exists g s1 t,
    NewGPUCollector mock.tableAB "node" tt mock.fresh = Returns (Some g, None) s1 t
    /\ forall n, exists sn,
        after_updates mock.tableAB g n s1 = Some sn
        /\ heap sn = heap mock.fresh ++ [newCollector "node" tt]
        /\ nth_error (heap sn) g = Some (newCollector "node" tt).
Proof.
  exact (NewGPUCollector_then_Updates mock.tableAB "node" tt mock.fresh
           tableAB_good_names eq_refl).
Defined.

Lemma Update_negative_count_witness :
  result (Update mock.libNegative 0%nat mock.state0) = Some None
  /\ events (Update mock.libNegative 0%nat mock.state0)
     = [ECall (nvml.CallDeviceGetCount (-1) nvml.SUCCESS)].
Proof.
  apply (Update_negative_count mock.libNegative "node" tt 0%nat mock.state0
                               (-1) nvml.SUCCESS).
  - reflexivity.
  - reflexivity.
  - reflexivity.
  - lia.
Defined.

Lemma Update_all_or_nothing_witness :
  samplesFor 0 (events (Update mock.libFaulty 0%nat mock.state0)) = []
  \/ List.length (samplesFor 0 (events (Update mock.libFaulty 0%nat mock.state0)))
     = 6%nat.
Proof.
  exact (Update_all_or_nothing mock.libFaulty "node" tt 0%nat mock.state0 0 eq_refl).
Defined.

End FurtherWitnesses.
